(** * mozilla_django_oidc.middleware: the token-freshness state machine

    A shallow embedding of [src/mozilla_django_oidc/middleware.py]
    ([SessionRefresh] and [RefreshOIDCToken]) and the properties of its
    specification.

    Conventions of the embedding.
    - Python values that flow through the session, the settings and the
      token endpoint's JSON body are values of [pyval]; operations applied
      to a value of the wrong type raise, as in Python 3.
    - Numbers are integers of [Z].  A Python [int] is [PNum z]; a Python
      [float] is [PFloat z], the double whose value is [z] (in seconds, or in
      a fixed binary fraction of a second when fractions matter: rounding is
      the same at every such scale).  Comparisons are exact, as in Python;
      [+] and [-] are exact on [int]s and round to 53 significant bits, ties
      to even, as soon as a [float] takes part ([round53]).  Infinities and
      NaN do not occur.
    - The middleware runs in a small state-and-exception monad [M] over a
      [world]: the request's session and user, and how often the clock,
      the random generator and the HTTP client have been used so far.  An
      exception keeps the effects performed before it was raised.
    - Everything the module imports from Django, [requests], the standard
      library and the sibling modules [mozilla_django_oidc.auth] and
      [mozilla_django_oidc.utils] is a field of the record [Env]. *)

From Stdlib Require Import ZArith Ascii String List Bool Lia.
From stdpp Require Import base gmap strings list.

Open Scope string_scope.
Open Scope Z_scope.

(** ** Python values *)

#[warnings="-register-all"]
Inductive pyval : Type :=
| PNone
| PBool (b : bool)
| PNum (z : Z)
| PFloat (z : Z)
| PStr (s : string)
| PList (l : list pyval)
| PDict (d : list (string * pyval)).

(** Exceptions.  [Foreign cls] is an exception raised inside a framework or
    library call (ImportError, NoReverseMatch, requests.ConnectionError,
    requests.Timeout, json.JSONDecodeError, ...), named by its class. *)
Inductive exn : Type :=
| ImproperlyConfigured (msg : string)
| PermissionDenied (msg : string)
| TypeError
| AttributeError
| Foreign (cls : string).

Inductive result (A : Type) : Type :=
| Return (a : A)
| Raise (e : exn).
Arguments Return {A} a.
Arguments Raise {A} e.

Definition rbind {A B} (m : result A) (k : A -> result B) : result B :=
  match m with
  | Return a => k a
  | Raise e => Raise e
  end.

(** [bool(v)]: Python truthiness. *)
Definition truthy (v : pyval) : bool :=
  match v with
  | PNone => false
  | PBool b => b
  | PNum z => negb (z =? 0)
  | PFloat z => negb (z =? 0)
  | PStr s => negb (String.eqb s "")
  | PList l => match l with [] => false | _ => true end
  | PDict d => match d with [] => false | _ => true end
  end.

(** The numeric reading of a value ([bool] is a subtype of [int]). *)
Definition as_num (v : pyval) : option Z :=
  match v with
  | PNum z => Some z
  | PFloat z => Some z
  | PBool b => Some (Z.b2z b)
  | _ => None
  end.

Definition is_float (v : pyval) : bool :=
  match v with
  | PFloat _ => true
  | _ => false
  end.

(** Rounding to a double: the nearest number with at most 53 significant
    bits, a tie going to the one whose last kept bit is 0. *)
Definition round53 (z : Z) : Z :=
  let a := Z.abs z in
  let bits := Z.log2 a + 1 in
  if bits <=? 53 then z else
  let drop := bits - 53 in
  let q := Z.shiftr a drop in
  let rest := a - Z.shiftl q drop in
  let half := Z.shiftl 1 (drop - 1) in
  let q' := if rest <? half then q
            else if half <? rest then q + 1
            else if Z.even q then q else q + 1 in
  Z.sgn z * Z.shiftl q' drop.

(** The operand of a float operation: an [int] is converted to a double. *)
Definition float_operand (v : pyval) (z : Z) : Z :=
  if is_float v then z else round53 z.

(** [a op b] for [op] one of [+] and [-]: exact on two [int]s; when one side
    is a [float] the other is converted and the result is rounded; anything
    that is not a number is a [TypeError]. *)
Definition py_arith (op : Z -> Z -> Z) (a b : pyval) : result pyval :=
  match as_num a, as_num b with
  | Some x, Some y =>
      if is_float a || is_float b
      then Return (PFloat (round53 (op (float_operand a x) (float_operand b y))))
      else Return (PNum (op x y))
  | _, _ => Raise TypeError
  end.

(** [v > now] against a number; ordering a non-number against a number is a
    [TypeError]. *)
Definition py_gt (v : pyval) (now : Z) : result bool :=
  match as_num v with
  | Some z => Return (now <? z)
  | None => Raise TypeError
  end.

(** [a - b] *)
Definition py_sub (a b : pyval) : result pyval := py_arith Z.sub a b.

(** [a + b] for a number [a] on the left (the result of a subtraction). *)
Definition py_add (a b : pyval) : result pyval := py_arith Z.add a b.

(** [list(v)] *)
Definition py_list (v : pyval) : result (list pyval) :=
  match v with
  | PList l => Return l
  | PDict d => Return (map (fun kv => PStr (fst kv)) d)
  | PStr s => Return (map (fun c => PStr (String c EmptyString)) (list_ascii_of_string s))
  | _ => Raise TypeError
  end.

(** [v.startswith('/')] *)
Definition startswith_slash (v : pyval) : result bool :=
  match v with
  | PStr s => Return (String.prefix "/" s)
  | _ => Raise AttributeError
  end.

Fixpoint dict_lookup (d : list (string * pyval)) (k : string) : option pyval :=
  match d with
  | [] => None
  | (k', v) :: d' => if String.eqb k' k then Some v else dict_lookup d' k
  end.

(** [v.get(k)]: [None] for a missing key; only a dict has [get]. *)
Definition py_get (v : pyval) (k : string) : result pyval :=
  match v with
  | PDict d => Return (default PNone (dict_lookup d k))
  | _ => Raise AttributeError
  end.

(** [s.upper()] on the ASCII letters. *)
Definition upper_ascii (c : ascii) : ascii :=
  let n := nat_of_ascii c in
  if ((97 <=? n) && (n <=? 122))%nat then ascii_of_nat (n - 32) else c.

Fixpoint upper (s : string) : string :=
  match s with
  | EmptyString => EmptyString
  | String c s' => String (upper_ascii c) (upper s')
  end.

(** ** Requests, responses, the world *)

Record request := {
  method : string;            (* request.method *)
  path : string;              (* request.path *)
  get_full_path : string;     (* request.get_full_path() *)
  is_ajax : bool;             (* request.is_ajax() *)
}.

Inductive response : Type :=
| HttpResponseRedirect (redirect_to : string)
| JsonResponse (data : list (string * pyval)) (status : Z)
               (headers : list (string * string)).

(** [response.status_code]; [HttpResponseRedirect.status_code] is 302. *)
Definition response_status (resp : response) : Z :=
  match resp with
  | HttpResponseRedirect _ => 302
  | JsonResponse _ status _ => status
  end.

(** What [requests.post] hands back: the status and what [.json()] gives. *)
Record http_response := {
  status_code : Z;
  json : result pyval;
}.

Record world := {
  session : gmap string pyval;        (* request.session *)
  user_is_authenticated : bool;       (* request.user.is_authenticated *)
  clock_reads : nat;                  (* calls of time.time() so far *)
  random_draws : nat;                 (* calls of get_random_string so far *)
  posts : list (pyval * list (string * pyval));
                                      (* calls of requests.post so far, newest first *)
}.

Definition pyclass := string.

(** The imported names the middleware calls. *)
Record Env := {
  settings : gmap string pyval;                       (* django.conf.settings *)
  time_time : nat -> Z;                               (* the n-th clock sample *)
  get_random_string : nat -> pyval -> string;         (* the n-th draw, of a length *)
  requests_post : nat -> pyval -> list (string * pyval) -> result http_response;
  import_string : pyval -> result pyclass;
  issubclass : pyclass -> pyclass -> bool;
  reverse : pyval -> result string;
  absolutify : request -> string -> string;
  urlencode : list (string * pyval) -> string;
  py_str : pyval -> string;                           (* str(v), as str.format applies it *)
  add_state_and_nonce_to_session :
    request -> string -> list (string * pyval) -> world -> world;
  store_expiration_times : world -> world;
  store_tokens : pyval -> pyval -> pyval -> world -> world;
  django_logout : world -> world;
}.

Definition BACKEND_SESSION_KEY : string := "_auth_user_backend".
Definition OIDCAuthenticationBackend : pyclass :=
  "mozilla_django_oidc.auth.OIDCAuthenticationBackend".

(** ** The monad of the middleware *)

Definition M (A : Type) : Type := world -> result A * world.

Definition ret {A} (a : A) : M A := fun w => (Return a, w).
Definition raise {A} (e : exn) : M A := fun w => (Raise e, w).
Definition bind {A B} (m : M A) (k : A -> M B) : M B :=
  fun w => match m w with
           | (Return a, w') => k a w'
           | (Raise e, w') => (Raise e, w')
           end.
Definition lift {A} (r : result A) : M A := fun w => (r, w).
Definition reading {A} (f : world -> result A) : M A := fun w => (f w, w).
Definition modify (f : world -> world) : M unit := fun w => (Return tt, f w).

Notation "'do' x <- m ; k" := (bind m (fun x => k))
  (at level 10, x name, m at level 100, k at level 200).
Notation "m ;; k" := (bind m (fun _ => k))
  (at level 100, k at level 200, right associativity).

Definition tick (w : world) : world :=
  {| session := session w; user_is_authenticated := user_is_authenticated w;
     clock_reads := S (clock_reads w); random_draws := random_draws w;
     posts := posts w |}.

Definition drawn (w : world) : world :=
  {| session := session w; user_is_authenticated := user_is_authenticated w;
     clock_reads := clock_reads w; random_draws := S (random_draws w);
     posts := posts w |}.

Definition posted (url : pyval) (data : list (string * pyval)) (w : world) : world :=
  {| session := session w; user_is_authenticated := user_is_authenticated w;
     clock_reads := clock_reads w; random_draws := random_draws w;
     posts := (url, data) :: posts w |}.

Definition session_set (k : string) (v : pyval) (w : world) : world :=
  {| session := <[k := v]> (session w);
     user_is_authenticated := user_is_authenticated w;
     clock_reads := clock_reads w; random_draws := random_draws w;
     posts := posts w |}.

(** [request.session.get(k, dflt)] *)
Definition session_get (k : string) (dflt : pyval) : M pyval :=
  fun w => (Return (default dflt (session w !! k)), w).

Section Middleware.

Variable E : Env.

(** Modelled from the spec: [mozilla_django_oidc.utils.import_from_settings]
    is not part of the sources at hand.  The specification describes it as a
    lookup [get(key, default?) -> value] that fails with ImproperlyConfigured
    when the key is missing and no default is given.  The message of that
    exception is not specified; the model carries the name of the setting. *)
Definition import_from_settings (attr : string) (dflt : option pyval) : result pyval :=
  match settings E !! attr with
  | Some v => Return v
  | None =>
      match dflt with
      | Some d => Return d
      | None => Raise (ImproperlyConfigured attr)
      end
  end.

(** [time.time()] *)
Definition now_ : M Z :=
  fun w => (Return (time_time E (clock_reads w)), tick w).

(** [get_random_string(length)] *)
Definition random_string (length : pyval) : M string :=
  fun w => (Return (get_random_string E (random_draws w) length), drawn w).

(** [requests.post(url, data=data)] *)
Definition post (url : pyval) (data : list (string * pyval)) : M http_response :=
  fun w => (requests_post E (List.length (posts w)) url data, posted url data w).

(** *** class SessionRefresh *)

(** [SessionRefresh.get_settings] (lines 42-44) *)
Definition get_settings (attr : string) (dflt : option pyval) : result pyval :=
  import_from_settings attr dflt.

(** The list comprehension of [exempt_urls] (lines 64-67). *)
Fixpoint resolve_urls (urls : list pyval) : result (list string) :=
  match urls with
  | [] => Return []
  | url :: rest =>
      rbind (startswith_slash url) (fun verbatim =>
      rbind (if verbatim
             then match url with PStr s => Return s | _ => Raise AttributeError end
             else reverse E url) (fun p =>
      rbind (resolve_urls rest) (fun ps => Return (p :: ps))))
  end.

(** [SessionRefresh.exempt_urls] (lines 46-67).  The property is cached per
    middleware object; the settings and the URL configuration do not change
    while a process runs, so every use sees this value. *)
Definition exempt_urls : result (gset string) :=
  rbind (get_settings "OIDC_EXEMPT_URLS" (Some (PList []))) (fun configured =>
  rbind (py_list configured) (fun urls =>
  let urls := (urls ++ [PStr "oidc_authentication_init";
                        PStr "oidc_authentication_callback";
                        PStr "oidc_logout"])%list in
  rbind (resolve_urls urls) (fun ps => Return (list_to_set ps)))).

(** [SessionRefresh.is_refreshable_url] (lines 69-90) *)
Definition is_refreshable_url (r : request) (get_only : bool) (w : world)
  : result bool :=
  let backend_session := default PNone (session w !! BACKEND_SESSION_KEY) in
  rbind (if truthy backend_session
         then rbind (import_string E backend_session) (fun auth_backend =>
              Return (issubclass E auth_backend OIDCAuthenticationBackend))
         else Return true) (fun is_oidc_enabled =>
  if negb get_only || String.eqb (method r) "GET" then
    if user_is_authenticated w then
      if is_oidc_enabled then
        rbind exempt_urls (fun exempt =>
        Return (bool_decide (path r ∉ exempt)))
      else Return false
    else Return false
  else Return false).

(** [SessionRefresh.is_expired] (lines 92-100) *)
Definition is_expired (r : request) : M bool :=
  do expiration <- session_get "oidc_id_token_expiration" (PNum 0);
  do now <- now_;
  do valid <- lift (py_gt expiration now);
  if valid then ret false else ret true.

(** The response that ends [SessionRefresh.process_request] (lines 143-155).
    The two constructors of Django are taken to accept the URL: they refuse a
    redirect whose scheme is not http, https or ftp, and a header value with
    a line break, which an authorization endpoint that is a well-formed
    http(s) URL does not produce. *)
Definition refresh_response (r : request) (redirect_url : string) : response :=
  if is_ajax r
  then JsonResponse [("refresh_url", PStr redirect_url)] 403
                    [("refresh_url", redirect_url)]
  else HttpResponseRedirect redirect_url.

(** Lines 110-155 of [SessionRefresh.process_request]: the silent
    re-authentication that follows the two guards. *)
Definition silent_reauthentication (r : request) : M (option response) :=
  do auth_url <- lift (get_settings "OIDC_OP_AUTHORIZATION_ENDPOINT" None);
  do client_id <- lift (get_settings "OIDC_RP_CLIENT_ID" None);
  do state_size <- lift (get_settings "OIDC_STATE_SIZE" (Some (PNum 32)));
  do state <- random_string state_size;
  do callback <- lift (get_settings "OIDC_AUTHENTICATION_CALLBACK_URL"
                         (Some (PStr "oidc_authentication_callback")));
  do callback_path <- lift (reverse E callback);
  do scope <- lift (get_settings "OIDC_RP_SCOPES" (Some (PStr "openid email")));
  let params := [("response_type", PStr "code");
                 ("client_id", client_id);
                 ("redirect_uri", PStr (absolutify E r callback_path));
                 ("state", PStr state);
                 ("scope", scope);
                 ("prompt", PStr "none")] in
  do use_nonce <- lift (get_settings "OIDC_USE_NONCE" (Some (PBool true)));
  do params <-
    (if truthy use_nonce
     then do nonce_size <- lift (get_settings "OIDC_NONCE_SIZE" (Some (PNum 32)));
          do nonce <- random_string nonce_size;
          ret (params ++ [("nonce", PStr nonce)])%list
     else ret params);
  modify (add_state_and_nonce_to_session E r state params) ;;
  modify (session_set "oidc_login_next" (PStr (get_full_path r))) ;;
  let query := urlencode E params in
  let redirect_url := py_str E auth_url +:+ "?" +:+ query in
  ret (Some (refresh_response r redirect_url)).

(** [SessionRefresh.process_request] (lines 102-155) *)
Definition SessionRefresh_process_request (r : request) : M (option response) :=
  do refreshable <- reading (is_refreshable_url r true);
  if negb refreshable then ret None else
  do expired <- is_expired r;
  if negb expired then ret None else
  silent_reauthentication r.

(** *** class RefreshOIDCToken(SessionRefresh) *)

(** [RefreshOIDCToken._handle_refresh_token_expire] (lines 206-218) *)
Definition _handle_refresh_token_expire (r : request) : M (option response) :=
  do renew_refresh_token <-
    lift (import_from_settings "OIDC_RENEW_REFRESH_TOKEN" (Some (PBool false)));
  if truthy renew_refresh_token && String.eqb (upper (method r)) "GET"
  then SessionRefresh_process_request r
  else modify (django_logout E) ;;
       raise (PermissionDenied "Refresh token expired on POST.").

(** [RefreshOIDCToken._is_refresh_token_expired] (lines 220-242) *)
Definition _is_refresh_token_expired (r : request) : M bool :=
  do refresh_toke_expire_time <-
    lift (import_from_settings "OIDC_RENEW_REFRESH_TOKEN_EXPIRY_SECONDS"
            (Some (PNum 0)));
  if negb (truthy refresh_toke_expire_time) then ret false else
  do expiration <- session_get "oidc_id_token_expiration" (PNum 0);
  do id_expiry <-
    lift (import_from_settings "OIDC_RENEW_ID_TOKEN_EXPIRY_SECONDS" None);
  do difference <- lift (py_sub expiration id_expiry);
  do refresh_token_expire <- lift (py_add difference refresh_toke_expire_time);
  do now <- now_;
  do valid <- lift (py_gt refresh_token_expire now);
  if valid then ret false else ret true.

(** [RefreshOIDCToken.process_request] (lines 163-204) *)
Definition RefreshOIDCToken_process_request (r : request) : M (option response) :=
  do refreshable <- reading (is_refreshable_url r false);
  if negb refreshable then ret None else
  do expired <- is_expired r;
  if negb expired then ret None else
  do token_url <- lift (import_from_settings "OIDC_OP_TOKEN_ENDPOINT" None);
  do client_id <- lift (import_from_settings "OIDC_RP_CLIENT_ID" None);
  do client_secret <- lift (import_from_settings "OIDC_RP_CLIENT_SECRET" None);
  do refresh_token <- session_get "oidc_refresh_token" PNone;
  do refresh_expired <- _is_refresh_token_expired r;
  if refresh_expired then _handle_refresh_token_expire r else
  if negb (truthy refresh_token)
  then raise (ImproperlyConfigured "Refresh token missing.") else
  let token_payload := [("grant_type", PStr "refresh_token");
                        ("client_id", client_id);
                        ("client_secret", client_secret);
                        ("refresh_token", refresh_token)] in
  do resp <- post token_url token_payload;
  if negb (status_code resp =? 200) then _handle_refresh_token_expire r else
  do token_info <- lift (json resp);
  do id_token <- lift (py_get token_info "id_token");
  do access_token <- lift (py_get token_info "access_token");
  do refresh_token <- lift (py_get token_info "refresh_token");
  modify (store_expiration_times E) ;;
  modify (store_tokens E access_token id_token refresh_token) ;;
  ret None.

End Middleware.

(** ** An example deployment

    A concrete environment on which the statements below can be evaluated.
    The collaborators that are not part of the module are given simple
    bodies here; the theorems hold for every [Env]. *)

Module Example.

Definition example_settings : gmap string pyval :=
  list_to_map
    [("OIDC_OP_AUTHORIZATION_ENDPOINT", PStr "https://op.example/auth");
     ("OIDC_OP_TOKEN_ENDPOINT", PStr "https://op.example/token");
     ("OIDC_RP_CLIENT_ID", PStr "client");
     ("OIDC_RP_CLIENT_SECRET", PStr "secret");
     ("OIDC_EXEMPT_URLS", PList [PStr "/health/"; PStr "about"]);
     ("OIDC_RENEW_ID_TOKEN_EXPIRY_SECONDS", PNum 900);
     ("OIDC_RENEW_REFRESH_TOKEN_EXPIRY_SECONDS", PNum 3600)].

Definition example_reverse (v : pyval) : result string :=
  match v with
  | PStr s =>
      if String.eqb s "oidc_authentication_init" then Return "/oidc/authenticate/"
      else if String.eqb s "oidc_authentication_callback" then Return "/oidc/callback/"
      else if String.eqb s "oidc_logout" then Return "/oidc/logout/"
      else if String.eqb s "about" then Return "/about/"
      else Raise (Foreign "NoReverseMatch")
  | _ => Raise (Foreign "NoReverseMatch")
  end.

(** The paths of the named views, as a total function. *)
Definition example_rev (s : string) : string :=
  match example_reverse (PStr s) with
  | Return p => p
  | Raise _ => ""
  end.

Definition example_import_string (v : pyval) : result pyclass :=
  match v with
  | PStr s =>
      if String.eqb s "mozilla_django_oidc.auth.OIDCAuthenticationBackend"
         || String.eqb s "django.contrib.auth.backends.ModelBackend"
      then Return s
      else Raise (Foreign "ImportError")
  | _ => Raise AttributeError
  end.

Definition example_str (v : pyval) : string :=
  match v with
  | PStr s => s
  | PNone => "None"
  | PBool true => "True"
  | PBool false => "False"
  | _ => "?"
  end.

(** [urllib.parse.quote_plus] on bytes: letters, digits and [_.-~] stay, a
    space becomes [+], every other byte becomes [%XX]. *)
Definition hex_digit (n : nat) : ascii :=
  ascii_of_nat (if (n <? 10)%nat then 48 + n else 55 + n).

Definition quote_byte (c : ascii) : string :=
  let n := nat_of_ascii c in
  if ((48 <=? n) && (n <=? 57) || (65 <=? n) && (n <=? 90)
      || (97 <=? n) && (n <=? 122)
      || (n =? 95) || (n =? 46) || (n =? 45) || (n =? 126))%nat
  then String c EmptyString
  else if (n =? 32)%nat then "+"
  else String "%" (String (hex_digit (n / 16)) (String (hex_digit (n mod 16))
                                                  EmptyString)).

Fixpoint quote_plus (s : string) : string :=
  match s with
  | EmptyString => EmptyString
  | String c s' => quote_byte c +:+ quote_plus s'
  end.

Fixpoint example_urlencode (params : list (string * pyval)) : string :=
  match params with
  | [] => ""
  | [(k, v)] => quote_plus k +:+ "=" +:+ quote_plus (example_str v)
  | (k, v) :: rest =>
      quote_plus k +:+ "=" +:+ quote_plus (example_str v) +:+ "&"
      +:+ example_urlencode rest
  end.

(** A framework logout: the session is flushed and the user is anonymous. *)
Definition example_logout (w : world) : world :=
  {| session := ∅; user_is_authenticated := false;
     clock_reads := clock_reads w; random_draws := random_draws w;
     posts := posts w |}.

Definition example_store_tokens (access_token id_token refresh_token : pyval)
    (w : world) : world :=
  session_set "oidc_refresh_token" refresh_token
    (session_set "oidc_id_token" id_token
       (session_set "oidc_access_token" access_token w)).

(** The environment, for a clock and an answer of the token endpoint. *)
Definition env (settings : gmap string pyval) (clock : nat -> Z)
    (answer : result http_response) : Env :=
  {| settings := settings;
     time_time := clock;
     get_random_string := fun n _ => if Nat.even n then "state" else "nonce";
     requests_post := fun _ _ _ => answer;
     import_string := example_import_string;
     issubclass := fun c d => String.eqb c d;
     reverse := example_reverse;
     absolutify := fun _ p => "https://rp.example" +:+ p;
     urlencode := example_urlencode;
     py_str := example_str;
     add_state_and_nonce_to_session :=
       fun _ state _ => session_set ("oidc_state_" +:+ state) (PBool true);
     store_expiration_times :=
       fun w => session_set "oidc_id_token_expiration"
                  (PNum (clock (clock_reads w) + 900)) (tick w);
     store_tokens := example_store_tokens;
     django_logout := example_logout |}.

(** The same settings, with the renewal of refresh tokens by a silent
    re-authentication switched on. *)
Definition renewing_settings : gmap string pyval :=
  <[ "OIDC_RENEW_REFRESH_TOKEN" := PBool true ]> example_settings.

(** A session whose ID token expired at 1000 and that holds a refresh token. *)
Definition stale_session : gmap string pyval :=
  list_to_map [("oidc_id_token_expiration", PNum 1000);
               ("oidc_refresh_token", PStr "refresh1")].

Definition connection_failed : result http_response :=
  Raise (Foreign "requests.exceptions.ConnectionError").

Definition rejected_400 : result http_response :=
  Return {| status_code := 400;
            json := Return (PDict [("error", PStr "invalid_grant")]) |}.

Definition ok_200_empty : result http_response :=
  Return {| status_code := 200; json := Return (PDict []) |}.

(** A 200 answer whose body is JSON, but a list and not an object. *)
Definition ok_200_list : result http_response :=
  Return {| status_code := 200; json := Return (PList []) |}.

(** A clock that steps back after its second sample. *)
Definition stepping_back (n : nat) : Z :=
  if (n <? 2)%nat then 5000 else 500.

Definition ok_200 : result http_response :=
  Return {| status_code := 200;
            json := Return (PDict [("id_token", PStr "id2");
                                   ("access_token", PStr "access2");
                                   ("refresh_token", PStr "refresh2")]) |}.

Definition world_of (s : gmap string pyval) : world :=
  {| session := s; user_is_authenticated := true;
     clock_reads := 0; random_draws := 0; posts := [] |}.

Definition get_dashboard : request :=
  {| method := "GET"; path := "/dashboard"; get_full_path := "/dashboard?tab=1";
     is_ajax := false |}.

Definition post_form : request :=
  {| method := "POST"; path := "/form"; get_full_path := "/form";
     is_ajax := false |}.

Definition xhr_dashboard : request :=
  {| method := "GET"; path := "/dashboard"; get_full_path := "/dashboard?tab=1";
     is_ajax := true |}.

End Example.

(** ** Notions used by the statements *)

(** The three views of mozilla-django-oidc that are always exempt. *)
Definition oidc_views : list string :=
  ["oidc_authentication_init"; "oidc_authentication_callback"; "oidc_logout"].

(** An entry that starts with "/" is a path already; any other entry is a
    view name, resolved by [rev]. *)
Definition resolved (rev : string -> string) (url : string) : string :=
  if String.prefix "/" url then url else rev url.


(** Between [w] and [w'] nothing happened but reads of the clock: the
    session, the user, the random generator and the HTTP client are as they
    were. *)
Definition only_clock_read (w w' : world) : Prop :=
  session w' = session w
  /\ user_is_authenticated w' = user_is_authenticated w
  /\ random_draws w' = random_draws w
  /\ posts w' = posts w.

(** The request passes both guards of [RefreshOIDCToken.process_request]
    and the three settings it requires are there (lines 164-173). *)
Record exchanger_runs (E : Env) (r : request) (w : world)
    (token_url client_id client_secret : pyval) : Prop := {
  runs_refreshable : is_refreshable_url E r false w = Return true;
  runs_expired : fst (is_expired E r w) = Return true;
  runs_token_url : settings E !! "OIDC_OP_TOKEN_ENDPOINT" = Some token_url;
  runs_client_id : settings E !! "OIDC_RP_CLIENT_ID" = Some client_id;
  runs_client_secret : settings E !! "OIDC_RP_CLIENT_SECRET" = Some client_secret;
}.

(** The refresh token read from the session at line 174. *)
Definition stored_refresh_token (w : world) : pyval :=
  default PNone (session w !! "oidc_refresh_token").

(** The form posted to the token endpoint (lines 183-188). *)
Definition token_payload (client_id client_secret refresh_token : pyval)
  : list (string * pyval) :=
  [("grant_type", PStr "refresh_token");
   ("client_id", client_id);
   ("client_secret", client_secret);
   ("refresh_token", refresh_token)].

(** The run arrives at [requests.post] (line 190) in world [w2], about to
    post [payload] to [token_url]: the refresh token is not considered
    expired and one is stored. *)
Definition reaches_token_endpoint (E : Env) (r : request) (w : world)
    (token_url : pyval) (payload : list (string * pyval)) (w2 : world) : Prop :=
  exists client_id client_secret,
    exchanger_runs E r w token_url client_id client_secret
    /\ _is_refresh_token_expired E r (tick w) = (Return false, w2)
    /\ truthy (stored_refresh_token w) = true
    /\ payload = token_payload client_id client_secret (stored_refresh_token w).


(** The token read from the body of the token endpoint's answer. *)
Definition token_of (d : list (string * pyval)) (k : string) : pyval :=
  match dict_lookup d k with
  | Some v => v
  | None => PNone
  end.

(** What the silent re-authentication computes in world [w] (lines 112-142):
    the state, the parameters, the URL, and the world it leaves. *)
Definition reauth_state (E : Env) (w : world) : string :=
  get_random_string E (random_draws w)
    (default (PNum 32) (settings E !! "OIDC_STATE_SIZE")).

Definition reauth_use_nonce (E : Env) : bool :=
  truthy (default (PBool true) (settings E !! "OIDC_USE_NONCE")).

Definition reauth_params (E : Env) (r : request) (w : world)
    (client_id : pyval) (callback_path : string) : list (string * pyval) :=
  ([("response_type", PStr "code");
    ("client_id", client_id);
    ("redirect_uri", PStr (absolutify E r callback_path));
    ("state", PStr (reauth_state E w));
    ("scope", default (PStr "openid email") (settings E !! "OIDC_RP_SCOPES"));
    ("prompt", PStr "none")]
   ++ (if reauth_use_nonce E
       then [("nonce",
              PStr (get_random_string E (S (random_draws w))
                      (default (PNum 32) (settings E !! "OIDC_NONCE_SIZE"))))]
       else []))%list.

Definition reauth_url (E : Env) (r : request) (w : world)
    (auth_url client_id : pyval) (callback_path : string) : string :=
  py_str E auth_url +:+ "?" +:+ urlencode E (reauth_params E r w client_id callback_path).

Definition reauth_world (E : Env) (r : request) (w : world)
    (client_id : pyval) (callback_path : string) : world :=
  session_set "oidc_login_next" (PStr (get_full_path r))
    (add_state_and_nonce_to_session E r (reauth_state E w)
       (reauth_params E r w client_id callback_path)
       (if reauth_use_nonce E then drawn (drawn w) else drawn w)).

(** The settings and the route the silent re-authentication needs. *)
Record initiator_configured (E : Env) (auth_url client_id : pyval)
    (callback_path : string) : Prop := {
  conf_auth_url : settings E !! "OIDC_OP_AUTHORIZATION_ENDPOINT" = Some auth_url;
  conf_client_id : settings E !! "OIDC_RP_CLIENT_ID" = Some client_id;
  conf_callback :
    reverse E (default (PStr "oidc_authentication_callback")
                 (settings E !! "OIDC_AUTHENTICATION_CALLBACK_URL"))
    = Return callback_path;
}.

(** The reading of the specification that a failure of the transport is
    handled as a rejection by the token endpoint is: whenever the call of
    [requests.post] raises, the run goes on into
    [_handle_refresh_token_expire] as it does for a status other than 200. *)
Definition transport_failure_is_rejection (E : Env) (r : request) (w : world)
  : Prop :=
  forall token_url payload w2 e,
    reaches_token_endpoint E r w token_url payload w2 ->
    requests_post E (List.length (posts w2)) token_url payload = Raise e ->
    RefreshOIDCToken_process_request E r w =
      _handle_refresh_token_expire E r (posted token_url payload w2).

(** The deadline of the refresh token, as lines 228-232 compute it. *)
Definition refresh_deadline (expiration id_expiry refresh_expiry : pyval)
  : result pyval :=
  rbind (py_sub expiration id_expiry) (fun difference =>
  py_add difference refresh_expiry).

(** The reading of the specification that the deadline is the sum
    [expiration - id seconds + refresh seconds] itself. *)
Definition deadline_is_exact (E : Env) (r : request) (w : world) : Prop :=
  forall v x y e,
    as_num (default (PNum 0)
              (settings E !! "OIDC_RENEW_REFRESH_TOKEN_EXPIRY_SECONDS")) = Some x ->
    settings E !! "OIDC_RENEW_ID_TOKEN_EXPIRY_SECONDS" = Some v ->
    as_num v = Some y ->
    as_num (default (PNum 0) (session w !! "oidc_id_token_expiration")) = Some e ->
    (fst (_is_refresh_token_expired E r w) = Return true
     <-> x <> 0 /\ e - y + x <= time_time E (clock_reads w)).


(** The reading of the specification that every answer with status 200 is
    stored and the request goes on. *)
Definition every_200_is_stored (E : Env) (r : request) (w : world) : Prop :=
  forall token_url payload w2 resp,
    reaches_token_endpoint E r w token_url payload w2 ->
    requests_post E (List.length (posts w2)) token_url payload = Return resp ->
    status_code resp = 200 ->
    exists w', RefreshOIDCToken_process_request E r w = (Return None, w').

(** ** Elementary facts *)

Lemma truthy_as_num v x : as_num v = Some x -> truthy v = negb (x =? 0).
Proof.
  destruct v as [| [] | z | z | | |]; simpl; intros H; inversion H; subst;
    reflexivity.
Qed.

Lemma session_tick w : session (tick w) = session w.
Proof. reflexivity. Qed.

(** ** Running the monad *)

Lemma bind_run {A B} (m : M A) (k : A -> M B) w a w' :
  m w = (Return a, w') -> bind m k w = k a w'.
Proof. unfold bind. intros ->. reflexivity. Qed.

Lemma bind_raise {A B} (m : M A) (k : A -> M B) w e w' :
  m w = (Raise e, w') -> bind m k w = (Raise e, w').
Proof. unfold bind. intros ->. reflexivity. Qed.

Lemma bind_lift {A B} (x : result A) (k : A -> M B) w a :
  x = Return a -> bind (lift x) k w = k a w.
Proof. intros ->. reflexivity. Qed.

Lemma bind_reading {A B} (f : world -> result A) (k : A -> M B) w a :
  f w = Return a -> bind (reading f) k w = k a w.
Proof. unfold bind, reading. intros ->. reflexivity. Qed.

Lemma bind_session_get {B} (k : string) (d : pyval) (K : pyval -> M B) w :
  bind (session_get k d) K w = K (default d (session w !! k)) w.
Proof. reflexivity. Qed.

Lemma import_from_settings_default (E : Env) attr d :
  import_from_settings E attr (Some d) = Return (default d (settings E !! attr)).
Proof. unfold import_from_settings. destruct (settings E !! attr); reflexivity. Qed.

Lemma import_from_settings_required (E : Env) attr v :
  settings E !! attr = Some v -> import_from_settings E attr None = Return v.
Proof. unfold import_from_settings. intros ->. reflexivity. Qed.

(** ** The Freshness Evaluator *)

(** C1. [is_expired] reads [oidc_id_token_expiration] from the session, with 0
    when the key is absent, samples the clock exactly once, and answers
    "valid" ([False]) exactly when the expiration is strictly greater than that
    sample.  An absent or zero expiration is expired whenever the clock reads
    a time at or after the epoch, and an expiration that is not in the future
    is expired. *)
Theorem is_expired_spec (E : Env) (r : request) (w : world) (e : Z) :
  as_num (default (PNum 0) (session w !! "oidc_id_token_expiration")) = Some e ->
  let now := time_time E (clock_reads w) in
  is_expired E r w = (Return (negb (now <? e)), tick w)
  /\ clock_reads (snd (is_expired E r w)) = S (clock_reads w)
  /\ (fst (is_expired E r w) = Return false <-> now < e)
  /\ (fst (is_expired E r w) = Return true <-> e <= now)
  /\ (session w !! "oidc_id_token_expiration" = None -> e = 0)
  /\ (0 <= now -> e = 0 -> fst (is_expired E r w) = Return true).
Proof.
  intros He now.
  assert (Hrun : is_expired E r w = (Return (negb (now <? e)), tick w)).
  { unfold is_expired, bind, session_get, now_, lift, py_gt, ret.
    rewrite He. fold now. destruct (now <? e); reflexivity. }
  rewrite Hrun. simpl.
  split; [reflexivity | split; [reflexivity |]].
  split; [split | split; [split | split]].
  - intros H. injection H as H. apply negb_false_iff in H. lia.
  - intros H. apply Z.ltb_lt in H. rewrite H. reflexivity.
  - intros H. injection H as H. apply negb_true_iff in H. lia.
  - intros H. apply Z.ltb_ge in H. rewrite H. reflexivity.
  - intros Habs. rewrite Habs in He. simpl in He. congruence.
  - intros Hnow H0. subst e. replace (now <? 0) with false by lia. reflexivity.
Qed.

Lemma is_expired_spec_witness :
  fst (is_expired (Example.env Example.example_settings (fun _ => 1000) Example.ok_200)
         Example.get_dashboard (Example.world_of ∅)) = Return true.
Proof.
  apply (is_expired_spec
           (Example.env Example.example_settings (fun _ => 1000) Example.ok_200)
           Example.get_dashboard (Example.world_of ∅) 0).
  - reflexivity.
  - simpl. lia.
  - reflexivity.
Defined.

(** ** The refresh-token deadline *)

(** A falsy expiry setting (0, [None], [False], or the setting left out) ends
    [_is_refresh_token_expired] at once: no other setting is looked up and
    the clock is not read. *)
Lemma refresh_token_never_expires_when_disabled (E : Env) (r : request) (w : world) :
  truthy (default (PNum 0)
            (settings E !! "OIDC_RENEW_REFRESH_TOKEN_EXPIRY_SECONDS")) = false ->
  _is_refresh_token_expired E r w = (Return false, w).
Proof.
  intros H. unfold _is_refresh_token_expired, bind, lift, import_from_settings, ret.
  destruct (settings E !! "OIDC_RENEW_REFRESH_TOKEN_EXPIRY_SECONDS") as [v|];
    simpl in *; [rewrite H |]; reflexivity.
Qed.

Lemma refresh_deadline_numeric (expiration id_expiry refresh_expiry : pyval)
    (e y x : Z) :
  as_num expiration = Some e -> as_num id_expiry = Some y ->
  as_num refresh_expiry = Some x ->
  exists deadline t,
    refresh_deadline expiration id_expiry refresh_expiry = Return deadline
    /\ as_num deadline = Some t.
Proof.
  intros He Hy Hx. unfold refresh_deadline, py_sub, py_add, py_arith.
  rewrite He, Hy.
  destruct (is_float expiration || is_float id_expiry); simpl; rewrite Hx;
    [| destruct (is_float refresh_expiry)]; eexists _, _; split; reflexivity.
Qed.

Lemma is_refresh_token_expired_deadline (E : Env) (r : request) (w : world)
    (v deadline : pyval) (t : Z) :
  truthy (default (PNum 0)
            (settings E !! "OIDC_RENEW_REFRESH_TOKEN_EXPIRY_SECONDS")) = true ->
  settings E !! "OIDC_RENEW_ID_TOKEN_EXPIRY_SECONDS" = Some v ->
  refresh_deadline
    (default (PNum 0) (session w !! "oidc_id_token_expiration")) v
    (default (PNum 0) (settings E !! "OIDC_RENEW_REFRESH_TOKEN_EXPIRY_SECONDS"))
  = Return deadline ->
  as_num deadline = Some t ->
  _is_refresh_token_expired E r w =
    (Return (t <=? time_time E (clock_reads w)), tick w).
Proof.
  intros Ht Hv Hd Hnum. unfold _is_refresh_token_expired.
  rewrite (bind_lift _ _ _ _ (import_from_settings_default E _ _)).
  rewrite Ht. cbv beta iota delta [negb].
  rewrite bind_session_get.
  rewrite (bind_lift _ _ _ _ (import_from_settings_required E _ _ Hv)).
  unfold refresh_deadline in Hd.
  destruct (py_sub _ v) as [difference | e] eqn:Hsub; [| discriminate Hd].
  simpl in Hd.
  rewrite (bind_lift _ _ _ _ eq_refl), (bind_lift _ _ _ _ Hd).
  unfold bind, now_, lift, py_gt, ret. rewrite Hnum.
  destruct (Z.ltb_spec (time_time E (clock_reads w)) t),
    (Z.leb_spec t (time_time E (clock_reads w))); try lia; reflexivity.
Qed.

(** C2, as the specification has it, fails: the deadline is not the exact
    sum.  With a float expiration of 2^53, 900 and 901 seconds, the code rounds
    2^53 + 1 to 2^53 and finds the refresh token expired at 2^53. *)
Lemma refresh_deadline_is_rounded :
  ~ deadline_is_exact
      (Example.env
         (<[ "OIDC_RENEW_REFRESH_TOKEN_EXPIRY_SECONDS" := PNum 901 ]>
            Example.example_settings)
         (fun _ => 2 ^ 53) Example.ok_200)
      Example.post_form
      (Example.world_of {[ "oidc_id_token_expiration" := PFloat (2 ^ 53) ]}).
Proof.
  intros Hexact.
  destruct (Hexact (PNum 900) 901 900 (2 ^ 53) eq_refl eq_refl eq_refl eq_refl)
    as [Hcode _].
  destruct (Hcode eq_refl) as [_ Hle]. simpl in Hle. lia.
Qed.

(** C2, amended.  [_is_refresh_token_expired] answers [False] at once when the
    refresh-token expiry seconds [x] are zero (or left out); otherwise it
    answers [True] exactly when the deadline is [<= now], where the deadline
    is [(oidc_id_token_expiration - OIDC_RENEW_ID_TOKEN_EXPIRY_SECONDS) + x]
    as Python computes it: the exact sum on integers, and rounded to a double
    after each of the two operations when the expiration is a float. *)
Theorem is_refresh_token_expired_spec (E : Env) (r : request) (w : world)
    (x : Z) :
  let rt := default (PNum 0)
              (settings E !! "OIDC_RENEW_REFRESH_TOKEN_EXPIRY_SECONDS") in
  let expiration := default (PNum 0) (session w !! "oidc_id_token_expiration") in
  let now := time_time E (clock_reads w) in
  as_num rt = Some x ->
  (x = 0 -> _is_refresh_token_expired E r w = (Return false, w))
  /\ (forall v deadline t,
        x <> 0 ->
        settings E !! "OIDC_RENEW_ID_TOKEN_EXPIRY_SECONDS" = Some v ->
        refresh_deadline expiration v rt = Return deadline ->
        as_num deadline = Some t ->
        _is_refresh_token_expired E r w = (Return (t <=? now), tick w)
        /\ (fst (_is_refresh_token_expired E r w) = Return true <-> t <= now))
  /\ (forall v e y,
        as_num expiration = Some e -> as_num v = Some y ->
        (exists deadline t,
           refresh_deadline expiration v rt = Return deadline
           /\ as_num deadline = Some t)
        /\ (is_float expiration = false -> is_float v = false ->
            is_float rt = false ->
            refresh_deadline expiration v rt = Return (PNum (e - y + x)))
        /\ (is_float expiration = true -> is_float v = false ->
            is_float rt = false ->
            refresh_deadline expiration v rt =
              Return (PFloat (round53 (round53 (e - round53 y) + round53 x))))).
Proof.
  intros rt expiration now Hx.
  pose proof (truthy_as_num _ _ Hx) as Ht. fold rt in Ht.
  split; [| split].
  - intros ->. apply refresh_token_never_expires_when_disabled. exact Ht.
  - intros v deadline t Hne Hv Hd Hnum.
    replace (x =? 0) with false in Ht by lia. simpl in Ht.
    rewrite (is_refresh_token_expired_deadline E r w v deadline t Ht Hv Hd Hnum).
    fold now. split; [reflexivity |]. simpl. split.
    + intros H. injection H as H. lia.
    + intros H. replace (t <=? now) with true by lia. reflexivity.
  - intros v e y He Hy. split; [| split].
    + exact (refresh_deadline_numeric expiration v rt e y x He Hy Hx).
    + intros F1 F2 F3. unfold refresh_deadline, py_sub, py_add, py_arith.
      rewrite He, Hy, F1, F2. simpl. rewrite Hx, F3. reflexivity.
    + intros F1 F2 F3. unfold refresh_deadline, py_sub, py_add, py_arith,
        float_operand.
      rewrite He, Hy, F1, F2. simpl. rewrite Hx, F3. reflexivity.
Qed.

Lemma is_refresh_token_expired_spec_witness :
  fst (_is_refresh_token_expired
         (Example.env Example.example_settings (fun _ => 5000) Example.ok_200)
         Example.post_form
         (Example.world_of {[ "oidc_id_token_expiration" := PFloat 1000 ]}))
  = Return true.
Proof.
  destruct (is_refresh_token_expired_spec
              (Example.env Example.example_settings (fun _ => 5000) Example.ok_200)
              Example.post_form
              (Example.world_of {[ "oidc_id_token_expiration" := PFloat 1000 ]})
              3600 eq_refl)
    as (_ & Hrun & _).
  apply (Hrun (PNum 900) (PFloat 3700) 3700).
  - lia.
  - reflexivity.
  - reflexivity.
  - reflexivity.
  - simpl. lia.
Defined.

(** ** The Eligibility Filter *)

Lemma resolve_urls_names (E : Env) (rev : string -> string) (names : list string) :
  (forall u, u ∈ names -> String.prefix "/" u = false ->
             reverse E (PStr u) = Return (rev u)) ->
  resolve_urls E (map PStr names) = Return (map (resolved rev) names).
Proof.
  induction names as [| u names IH]; intros Hrev; [reflexivity |].
  simpl. unfold resolved at 1.
  destruct (String.prefix "/" u) eqn:Hu; simpl.
  - rewrite IH; [reflexivity |]. intros u' Hin. apply Hrev. by right.
  - rewrite (Hrev u); [| by left | assumption]. simpl.
    rewrite IH; [reflexivity |]. intros u' Hin. apply Hrev. by right.
Qed.

Lemma exempt_urls_names (E : Env) (rev : string -> string) (names : list string) :
  default (PList []) (settings E !! "OIDC_EXEMPT_URLS") = PList (map PStr names) ->
  (forall u, u ∈ (names ++ oidc_views)%list -> String.prefix "/" u = false ->
             reverse E (PStr u) = Return (rev u)) ->
  exempt_urls E =
    Return (list_to_set (map (resolved rev) (names ++ oidc_views)%list)).
Proof.
  intros Hcfg Hrev. unfold exempt_urls, get_settings.
  rewrite import_from_settings_default, Hcfg. simpl.
  change [PStr "oidc_authentication_init"; PStr "oidc_authentication_callback";
          PStr "oidc_logout"] with (map PStr oidc_views).
  rewrite <- map_app, (resolve_urls_names E rev _ Hrev). reflexivity.
Qed.

(** C7. When the exempt list is a list of strings whose view names resolve,
    and the backend recorded in the session (if any) can be imported,
    [is_refreshable_url] returns a boolean, and it is [True] exactly when
    (1) [get_only] is off or the method is GET, (2) the user is
    authenticated, (3) no backend is recorded or the recorded one is a
    subclass of [OIDCAuthenticationBackend], and (4) the path is not among
    the exempt paths: the entries of [OIDC_EXEMPT_URLS] and the three views
    of the package, those starting with "/" verbatim, the others resolved. *)
Theorem is_refreshable_url_spec (E : Env) (r : request) (get_only : bool)
    (w : world) (names : list string) (rev : string -> string) (cls : pyclass) :
  default (PList []) (settings E !! "OIDC_EXEMPT_URLS") = PList (map PStr names) ->
  (forall u, u ∈ (names ++ oidc_views)%list -> String.prefix "/" u = false ->
             reverse E (PStr u) = Return (rev u)) ->
  let backend_session := default PNone (session w !! BACKEND_SESSION_KEY) in
  (truthy backend_session = true -> import_string E backend_session = Return cls) ->
  exists b : bool,
    is_refreshable_url E r get_only w = Return b
    /\ (b = true <->
          (get_only = false \/ method r = "GET")
          /\ user_is_authenticated w = true
          /\ (truthy backend_session = false
              \/ issubclass E cls OIDCAuthenticationBackend = true)
          /\ path r ∉ map (resolved rev) (names ++ oidc_views)%list).
Proof.
  intros Hcfg Hrev backend_session Himp.
  unfold is_refreshable_url. fold backend_session.
  rewrite (exempt_urls_names E rev names Hcfg Hrev).
  assert (Hm : negb get_only || String.eqb (method r) "GET" = true
               <-> get_only = false \/ method r = "GET").
  { rewrite orb_true_iff, negb_true_iff, String.eqb_eq. reflexivity. }
  destruct (truthy backend_session) eqn:Ht.
  - rewrite (Himp eq_refl). simpl.
    destruct (negb get_only || String.eqb (method r) "GET") eqn:Hg.
    + destruct (user_is_authenticated w) eqn:Ha.
      * destruct (issubclass E cls OIDCAuthenticationBackend) eqn:Hs; simpl.
        -- eexists. split; [reflexivity |].
           rewrite bool_decide_eq_true, elem_of_list_to_set.
           split.
           ++ intros Hp. repeat split; auto. apply Hm. reflexivity.
           ++ intros (_ & _ & _ & Hp). exact Hp.
        -- exists false. split; [reflexivity |].
           split; [discriminate |]. intros (_ & _ & [H | H] & _); discriminate.
      * exists false. split; [reflexivity |].
        split; [discriminate |]. intros (_ & H & _); discriminate.
    + exists false. split; [reflexivity |].
      split; [discriminate |]. intros (H & _). apply Hm in H. discriminate.
  - simpl.
    destruct (negb get_only || String.eqb (method r) "GET") eqn:Hg.
    + destruct (user_is_authenticated w) eqn:Ha; simpl.
      * eexists. split; [reflexivity |].
        rewrite bool_decide_eq_true, elem_of_list_to_set.
        split.
        -- intros Hp. repeat split; auto. apply Hm. reflexivity.
        -- intros (_ & _ & _ & Hp). exact Hp.
      * exists false. split; [reflexivity |].
        split; [discriminate |]. intros (_ & H & _); discriminate.
    + exists false. split; [reflexivity |].
      split; [discriminate |]. intros (H & _). apply Hm in H. discriminate.
Qed.

Lemma is_refreshable_url_spec_witness :
  is_refreshable_url
    (Example.env Example.example_settings (fun _ => 1000) Example.ok_200)
    Example.get_dashboard true
    (Example.world_of {[ BACKEND_SESSION_KEY := PStr OIDCAuthenticationBackend ]})
  = Return true.
Proof.
  destruct (is_refreshable_url_spec
              (Example.env Example.example_settings (fun _ => 1000) Example.ok_200)
              Example.get_dashboard true
              (Example.world_of
                 {[ BACKEND_SESSION_KEY := PStr OIDCAuthenticationBackend ]})
              ["/health/"; "about"] Example.example_rev OIDCAuthenticationBackend)
    as (b & Hrun & Hb).
  - reflexivity.
  - intros u Hu Hpre. unfold oidc_views in Hu. simpl in Hu.
    repeat (apply elem_of_cons in Hu as [-> | Hu];
            [first [reflexivity | discriminate Hpre] |]).
    by apply elem_of_nil in Hu.
  - intros _. reflexivity.
  - rewrite Hrun. f_equal. apply Hb. repeat split.
    + by right.
    + by right.
    + unfold oidc_views. simpl. intros Hp.
      repeat (apply elem_of_cons in Hp as [Hp | Hp]; [discriminate |]).
      by apply elem_of_nil in Hp.
Defined.

Lemma only_clock_read_refl w : only_clock_read w w.
Proof. repeat split. Qed.

Lemma only_clock_read_tick w w' : only_clock_read w w' -> only_clock_read w (tick w').
Proof. intros (? & ? & ? & ?). repeat split; assumption. Qed.

(** [is_expired] always ends in the world with one more clock sample,
    whether it returns or raises. *)
Lemma is_expired_world (E : Env) (r : request) (w : world) :
  snd (is_expired E r w) = tick w.
Proof.
  unfold is_expired, bind, session_get, now_, lift, ret.
  destruct (py_gt _ _) as [[] | e]; reflexivity.
Qed.

Lemma is_expired_run (E : Env) (r : request) (w : world) (b : bool) :
  fst (is_expired E r w) = Return b -> is_expired E r w = (Return b, tick w).
Proof.
  intros H. rewrite (surjective_pairing (is_expired E r w)), H, is_expired_world.
  reflexivity.
Qed.

(** [_is_refresh_token_expired] reads the clock at most once and touches
    nothing else. *)
Lemma is_refresh_token_expired_world (E : Env) (r : request) (w : world) :
  snd (_is_refresh_token_expired E r w) = w
  \/ snd (_is_refresh_token_expired E r w) = tick w.
Proof.
  unfold _is_refresh_token_expired, bind, lift, session_get, now_, ret.
  destruct (import_from_settings E "OIDC_RENEW_REFRESH_TOKEN_EXPIRY_SECONDS" _)
    as [rt | e]; [| by left].
  destruct (negb (truthy rt)); [by left |].
  destruct (import_from_settings E "OIDC_RENEW_ID_TOKEN_EXPIRY_SECONDS" None)
    as [y | e]; [| by left].
  destruct (py_sub _ y) as [d | e]; [| by left].
  destruct (py_add d rt) as [t | e]; [| by left].
  destruct (py_gt t _) as [[] | e]; by right.
Qed.

Lemma is_refresh_token_expired_only_clock (E : Env) (r : request) (w w0 w' : world)
    (b : result bool) :
  only_clock_read w0 w ->
  _is_refresh_token_expired E r w = (b, w') -> only_clock_read w0 w'.
Proof.
  intros Hw Hrun.
  destruct (is_refresh_token_expired_world E r w) as [H | H];
    rewrite Hrun in H; simpl in H; subst w'.
  - exact Hw.
  - by apply only_clock_read_tick.
Qed.


(** Once expired, the ID token stays expired for as long as the session
    keeps its expiration and the clock does not run backwards. *)
Lemma is_expired_later (E : Env) (r : request) (w w' : world) :
  fst (is_expired E r w) = Return true ->
  session w' = session w ->
  time_time E (clock_reads w) <= time_time E (clock_reads w') ->
  fst (is_expired E r w') = Return true.
Proof.
  unfold is_expired, bind, session_get, now_, lift, ret, py_gt.
  intros H Hs Hclock. rewrite Hs.
  destruct (as_num _) as [e |]; [| discriminate H].
  destruct (Z.ltb_spec (time_time E (clock_reads w)) e); [discriminate H |].
  destruct (Z.ltb_spec (time_time E (clock_reads w')) e); [lia | reflexivity].
Qed.


(** ** No action needed: pass-through *)

(** C10. When the Eligibility Filter answers [False], or it answers [True]
    and the Freshness Evaluator finds the ID token still valid, each of the
    two [process_request] entry points returns [None], and the session is
    left as it was (as are the user, the random generator and the HTTP
    client): nothing is written. *)
Theorem no_action_passes_through (E : Env) (r : request) (w : world) :
  (is_refreshable_url E r true w = Return false
   \/ (is_refreshable_url E r true w = Return true
       /\ fst (is_expired E r w) = Return false) ->
   fst (SessionRefresh_process_request E r w) = Return None
   /\ session (snd (SessionRefresh_process_request E r w)) = session w
   /\ only_clock_read w (snd (SessionRefresh_process_request E r w)))
  /\
  (is_refreshable_url E r false w = Return false
   \/ (is_refreshable_url E r false w = Return true
       /\ fst (is_expired E r w) = Return false) ->
   fst (RefreshOIDCToken_process_request E r w) = Return None
   /\ session (snd (RefreshOIDCToken_process_request E r w)) = session w
   /\ only_clock_read w (snd (RefreshOIDCToken_process_request E r w))).
Proof.
  split.
  - intros [Hno | [Hyes Hvalid]].
    + unfold SessionRefresh_process_request.
      rewrite (bind_reading _ _ _ _ Hno). simpl.
      repeat split.
    + unfold SessionRefresh_process_request.
      rewrite (bind_reading _ _ _ _ Hyes). simpl.
      rewrite (bind_run _ _ _ _ _ (is_expired_run E r w false Hvalid)). simpl.
      repeat split.
  - intros [Hno | [Hyes Hvalid]].
    + unfold RefreshOIDCToken_process_request.
      rewrite (bind_reading _ _ _ _ Hno). simpl.
      repeat split.
    + unfold RefreshOIDCToken_process_request.
      rewrite (bind_reading _ _ _ _ Hyes). simpl.
      rewrite (bind_run _ _ _ _ _ (is_expired_run E r w false Hvalid)). simpl.
      repeat split.
Qed.

Lemma no_action_passes_through_witness :
  fst (RefreshOIDCToken_process_request
         (Example.env Example.example_settings (fun _ => 1000) Example.ok_200)
         Example.post_form
         (Example.world_of {[ "oidc_id_token_expiration" := PNum 2000 ]}))
  = Return None
  /\ fst (SessionRefresh_process_request
         (Example.env Example.example_settings (fun _ => 1000) Example.ok_200)
         Example.post_form
         (Example.world_of {[ "oidc_id_token_expiration" := PNum 0 ]}))
  = Return None.
Proof.
  split.
  - apply (no_action_passes_through
             (Example.env Example.example_settings (fun _ => 1000) Example.ok_200)
             Example.post_form
             (Example.world_of {[ "oidc_id_token_expiration" := PNum 2000 ]})).
    right. split; reflexivity.
  - apply (no_action_passes_through
             (Example.env Example.example_settings (fun _ => 1000) Example.ok_200)
             Example.post_form
             (Example.world_of {[ "oidc_id_token_expiration" := PNum 0 ]})).
    left. reflexivity.
Defined.

(** ** The Silent Re-authentication Initiator *)

Lemma silent_reauthentication_run (E : Env) (r : request) (w : world)
    (auth_url client_id : pyval) (callback_path : string) :
  initiator_configured E auth_url client_id callback_path ->
  silent_reauthentication E r w =
    (Return (Some (refresh_response r
                     (reauth_url E r w auth_url client_id callback_path))),
     reauth_world E r w client_id callback_path).
Proof.
  intros [Hau Hci Hcb].
  unfold silent_reauthentication, get_settings.
  rewrite (bind_lift _ _ _ _ (import_from_settings_required E _ _ Hau)).
  rewrite (bind_lift _ _ _ _ (import_from_settings_required E _ _ Hci)).
  rewrite !import_from_settings_default.
  unfold reauth_url, reauth_world, reauth_params, reauth_state, reauth_use_nonce.
  unfold bind at 1. unfold lift at 1.
  unfold bind at 1. unfold random_string at 1.
  unfold bind at 1. unfold lift at 1.
  unfold bind at 1. unfold lift at 1. rewrite Hcb.
  unfold bind at 1. unfold lift at 1.
  unfold bind at 1. unfold lift at 1.
  destruct (truthy (default (PBool true) (settings E !! "OIDC_USE_NONCE")));
    reflexivity.
Qed.

Lemma SessionRefresh_process_request_run (E : Env) (r : request) (w : world)
    (auth_url client_id : pyval) (callback_path : string) :
  is_refreshable_url E r true w = Return true ->
  fst (is_expired E r w) = Return true ->
  initiator_configured E auth_url client_id callback_path ->
  SessionRefresh_process_request E r w =
    (Return (Some (refresh_response r
                     (reauth_url E r (tick w) auth_url client_id callback_path))),
     reauth_world E r (tick w) client_id callback_path).
Proof.
  intros Href Hexp Hconf. unfold SessionRefresh_process_request.
  rewrite (bind_reading _ _ _ _ Href). simpl.
  rewrite (bind_run _ _ _ _ _ (is_expired_run E r w true Hexp)). simpl.
  apply silent_reauthentication_run, Hconf.
Qed.

(** C8. When the silent re-authentication fires (the request is refreshable,
    the ID token has expired, and the settings and the callback route are
    there), the answer is decided by [request.is_ajax()] alone: an XHR
    request gets a JSON response of status 403 whose body holds the
    authorization URL under "refresh_url" and whose "refresh_url" header
    carries the same URL; any other request gets a redirect (302) to that
    same URL. *)
Theorem silent_reauthentication_response (E : Env) (r : request) (w : world)
    (auth_url client_id : pyval) (callback_path : string) :
  is_refreshable_url E r true w = Return true ->
  fst (is_expired E r w) = Return true ->
  initiator_configured E auth_url client_id callback_path ->
  let url := reauth_url E r (tick w) auth_url client_id callback_path in
  exists resp : response,
    fst (SessionRefresh_process_request E r w) = Return (Some resp)
    /\ (is_ajax r = true ->
        resp = JsonResponse [("refresh_url", PStr url)] 403 [("refresh_url", url)]
        /\ response_status resp = 403)
    /\ (is_ajax r = false ->
        resp = HttpResponseRedirect url /\ response_status resp = 302).
Proof.
  intros Href Hexp Hconf url.
  rewrite (SessionRefresh_process_request_run E r w _ _ _ Href Hexp Hconf).
  fold url. simpl. eexists. split; [reflexivity |].
  unfold refresh_response.
  split; intros ->; split; reflexivity.
Qed.

Lemma silent_reauthentication_response_witness :
  exists url : string,
    fst (SessionRefresh_process_request
           (Example.env Example.example_settings (fun _ => 1000) Example.ok_200)
           Example.xhr_dashboard (Example.world_of ∅))
    = Return (Some (JsonResponse [("refresh_url", PStr url)] 403
                                 [("refresh_url", url)])).
Proof.
  destruct (silent_reauthentication_response
              (Example.env Example.example_settings (fun _ => 1000) Example.ok_200)
              Example.xhr_dashboard (Example.world_of ∅)
              (PStr "https://op.example/auth") (PStr "client") "/oidc/callback/")
    as (resp & Hrun & Hxhr & _).
  - vm_compute. reflexivity.
  - reflexivity.
  - split; reflexivity.
  - destruct (Hxhr eq_refl) as [-> _]. eexists. exact Hrun.
Defined.

(** ** The Refresh-Token Exchanger *)

(** Lines 164-174: past the guards and the settings, the run continues with
    the refresh-token deadline in the world [tick w]. *)
Ltac exchanger_prefix H :=
  let Href := fresh "Href" in
  let Hexp := fresh "Hexp" in
  let Htu := fresh "Htu" in
  let Hci := fresh "Hci" in
  let Hcs := fresh "Hcs" in
  destruct H as [Href Hexp Htu Hci Hcs];
  unfold RefreshOIDCToken_process_request;
  rewrite (bind_reading _ _ _ _ Href); cbv beta iota delta [negb];
  rewrite (bind_run _ _ _ _ _ (is_expired_run _ _ _ _ Hexp));
  cbv beta iota delta [negb];
  rewrite (bind_lift _ _ _ _ (import_from_settings_required _ _ _ Htu));
  rewrite (bind_lift _ _ _ _ (import_from_settings_required _ _ _ Hci));
  rewrite (bind_lift _ _ _ _ (import_from_settings_required _ _ _ Hcs));
  rewrite bind_session_get;
  cbn [session tick]; unfold stored_refresh_token in *.


Lemma exchanger_no_refresh_token (E : Env) (r : request) (w w2 : world)
    (token_url client_id client_secret : pyval) :
  exchanger_runs E r w token_url client_id client_secret ->
  _is_refresh_token_expired E r (tick w) = (Return false, w2) ->
  truthy (stored_refresh_token w) = false ->
  RefreshOIDCToken_process_request E r w =
    (Raise (ImproperlyConfigured "Refresh token missing."), w2).
Proof.
  intros Hruns Hrte Hnone. exchanger_prefix Hruns.
  rewrite (bind_run _ _ _ _ _ Hrte). cbv beta iota. rewrite Hnone. reflexivity.
Qed.

(** From [requests.post] on (lines 190-204), for each way the call can end. *)
Lemma exchanger_posts (E : Env) (r : request) (w w2 : world)
    (token_url : pyval) (payload : list (string * pyval)) :
  reaches_token_endpoint E r w token_url payload w2 ->
  RefreshOIDCToken_process_request E r w =
    match requests_post E (List.length (posts w2)) token_url payload with
    | Raise e => (Raise e, posted token_url payload w2)
    | Return resp =>
        if status_code resp =? 200
        then match json resp with
             | Raise e => (Raise e, posted token_url payload w2)
             | Return (PDict d) =>
                 (Return None,
                  store_tokens E (token_of d "access_token") (token_of d "id_token")
                    (token_of d "refresh_token")
                    (store_expiration_times E (posted token_url payload w2)))
             | Return _ => (Raise AttributeError, posted token_url payload w2)
             end
        else _handle_refresh_token_expire E r (posted token_url payload w2)
    end.
Proof.
  intros (client_id & client_secret & Hruns & Hrte & Hsome & ->).
  exchanger_prefix Hruns.
  rewrite (bind_run _ _ _ _ _ Hrte). cbv beta iota. rewrite Hsome.
  cbv beta iota delta [negb]. unfold token_payload.
  unfold bind at 1. unfold post at 1.
  destruct (requests_post E _ _ _) as [resp | e]; [| reflexivity].
  destruct (status_code resp =? 200); [| reflexivity].
  cbv beta iota delta [negb].
  unfold bind at 1. unfold lift at 1.
  destruct (json resp) as [[| | | | | | d] | e]; try reflexivity.
Qed.

Lemma handle_refresh_token_expire_run (E : Env) (r : request) (w : world) :
  _handle_refresh_token_expire E r w =
    if truthy (default (PBool false) (settings E !! "OIDC_RENEW_REFRESH_TOKEN"))
       && String.eqb (upper (method r)) "GET"
    then SessionRefresh_process_request E r w
    else (Raise (PermissionDenied "Refresh token expired on POST."),
          django_logout E w).
Proof.
  unfold _handle_refresh_token_expire.
  rewrite (bind_lift _ _ _ _ (import_from_settings_default E _ _)).
  destruct (_ && _); reflexivity.
Qed.

Lemma reaches_token_endpoint_world (E : Env) (r : request) (w w2 : world)
    token_url payload :
  reaches_token_endpoint E r w token_url payload w2 -> only_clock_read w w2.
Proof.
  intros (ci & cs & _ & Hrte & _).
  eapply is_refresh_token_expired_only_clock; [| exact Hrte].
  apply only_clock_read_tick, only_clock_read_refl.
Qed.







(** What happens there: [None], with the user still logged in. *)
Example stepped_back_clock_passes_through :
  RefreshOIDCToken_process_request
    (Example.env Example.renewing_settings Example.stepping_back Example.ok_200)
    Example.get_dashboard (Example.world_of Example.stale_session)
  = (Return None, tick (tick (tick (Example.world_of Example.stale_session)))).
Proof. reflexivity. Qed.



(** With the renewal switched on, a GET request whose refresh token has
    expired is redirected to the authorization endpoint. *)
Example renewal_redirects_GET :
  exists url,
    fst (RefreshOIDCToken_process_request
           (Example.env Example.renewing_settings (fun _ => 5000) Example.ok_200)
           Example.get_dashboard (Example.world_of Example.stale_session))
    = Return (Some (HttpResponseRedirect url)).
Proof. eexists. vm_compute. reflexivity. Qed.

(** ** Failures of the transport *)

(** C4, as the specification has it, fails: a connection error on the way to the token endpoint
    is not handled as a rejection. *)
Lemma transport_failure_escapes :
  ~ transport_failure_is_rejection
      (Example.env Example.example_settings (fun _ => 1500) Example.connection_failed)
      Example.post_form (Example.world_of Example.stale_session).
Proof.
  intros Hfold.
  specialize (Hfold (PStr "https://op.example/token")
                (token_payload (PStr "client") (PStr "secret") (PStr "refresh1"))
                (tick (tick (Example.world_of Example.stale_session)))
                (Foreign "requests.exceptions.ConnectionError")).
  assert (Hfst : fst (RefreshOIDCToken_process_request
                        (Example.env Example.example_settings (fun _ => 1500)
                           Example.connection_failed)
                        Example.post_form
                        (Example.world_of Example.stale_session))
                 = Raise (PermissionDenied "Refresh token expired on POST.")).
  { rewrite Hfold.
    - reflexivity.
    - exists (PStr "client"), (PStr "secret").
      split; [split; reflexivity |]. repeat split; reflexivity.
    - reflexivity. }
  vm_compute in Hfst. discriminate Hfst.
Qed.

(** What happens instead: the exception of [requests] leaves
    [process_request]; nobody is logged out. *)
Example connection_error_raises :
  fst (RefreshOIDCToken_process_request
         (Example.env Example.example_settings (fun _ => 1500) Example.connection_failed)
         Example.post_form (Example.world_of Example.stale_session))
  = Raise (Foreign "requests.exceptions.ConnectionError")
  /\ user_is_authenticated
       (snd (RefreshOIDCToken_process_request
               (Example.env Example.example_settings (fun _ => 1500)
                  Example.connection_failed)
               Example.post_form (Example.world_of Example.stale_session)))
     = true.
Proof. split; reflexivity. Qed.

(** C4, amended.  An exception raised by [requests.post] is not caught: it
    leaves [process_request] as it is, with the session and the user as
    they were (no logout, no re-authentication).  Only an answer whose
    status is not 200 goes into [_handle_refresh_token_expire]. *)
Theorem transport_failure_propagates (E : Env) (r : request) (w w2 : world)
    (token_url : pyval) (payload : list (string * pyval)) :
  reaches_token_endpoint E r w token_url payload w2 ->
  (forall e,
     requests_post E (List.length (posts w2)) token_url payload = Raise e ->
     RefreshOIDCToken_process_request E r w = (Raise e, posted token_url payload w2)
     /\ session (posted token_url payload w2) = session w
     /\ user_is_authenticated (posted token_url payload w2)
        = user_is_authenticated w)
  /\ (forall resp,
        requests_post E (List.length (posts w2)) token_url payload = Return resp ->
        status_code resp <> 200 ->
        RefreshOIDCToken_process_request E r w =
          _handle_refresh_token_expire E r (posted token_url payload w2)).
Proof.
  intros Hreach.
  pose proof (reaches_token_endpoint_world E r w w2 _ _ Hreach) as (Hs & Hu & _).
  rewrite (exchanger_posts E r w w2 token_url payload Hreach).
  split.
  - intros e ->. auto.
  - intros resp -> Hstatus. apply Z.eqb_neq in Hstatus. rewrite Hstatus.
    reflexivity.
Qed.

Lemma transport_failure_propagates_witness :
  fst (RefreshOIDCToken_process_request
         (Example.env Example.example_settings (fun _ => 1500) Example.connection_failed)
         Example.post_form (Example.world_of Example.stale_session))
  = Raise (Foreign "requests.exceptions.ConnectionError").
Proof.
  destruct (transport_failure_propagates
              (Example.env Example.example_settings (fun _ => 1500)
                 Example.connection_failed)
              Example.post_form (Example.world_of Example.stale_session)
              (tick (tick (Example.world_of Example.stale_session)))
              (PStr "https://op.example/token")
              (token_payload (PStr "client") (PStr "secret") (PStr "refresh1")))
    as (Hraise & _).
  - exists (PStr "client"), (PStr "secret").
    split; [split; reflexivity |]. repeat split; reflexivity.
  - destruct (Hraise (Foreign "requests.exceptions.ConnectionError") eq_refl)
      as (-> & _).
    reflexivity.
Defined.

(** ** A successful exchange *)

(** C5, as the specification has it, fails: a 200 answer whose body is not
    a JSON object is not stored; [process_request] raises. *)
Lemma status_200_is_not_enough :
  ~ every_200_is_stored
      (Example.env Example.example_settings (fun _ => 1500) Example.ok_200_list)
      Example.post_form (Example.world_of Example.stale_session).
Proof.
  intros Hstored.
  destruct (Hstored (PStr "https://op.example/token")
              (token_payload (PStr "client") (PStr "secret") (PStr "refresh1"))
              (tick (tick (Example.world_of Example.stale_session)))
              {| status_code := 200; json := Return (PList []) |})
    as [w' Hrun].
  - exists (PStr "client"), (PStr "secret").
    split; [split; reflexivity |]. repeat split; reflexivity.
  - reflexivity.
  - reflexivity.
  - apply (f_equal fst) in Hrun. vm_compute in Hrun. discriminate Hrun.
Qed.

(** C5, amended.  When the token endpoint answers with status 200 and a JSON object,
    [process_request] reads [id_token], [access_token] and [refresh_token]
    from that object, calls [store_expiration_times] and then [store_tokens]
    with the three tokens, and returns [None]: no response, no exception. *)
Theorem successful_exchange_stores_tokens (E : Env) (r : request) (w w2 : world)
    (token_url : pyval) (payload : list (string * pyval))
    (resp : http_response) (d : list (string * pyval)) :
  reaches_token_endpoint E r w token_url payload w2 ->
  requests_post E (List.length (posts w2)) token_url payload = Return resp ->
  status_code resp = 200 ->
  json resp = Return (PDict d) ->
  RefreshOIDCToken_process_request E r w =
    (Return None,
     store_tokens E
       (default PNone (dict_lookup d "access_token"))
       (default PNone (dict_lookup d "id_token"))
       (default PNone (dict_lookup d "refresh_token"))
       (store_expiration_times E (posted token_url payload w2))).
Proof.
  intros Hreach Hpost Hstatus Hjson.
  rewrite (exchanger_posts E r w w2 token_url payload Hreach).
  rewrite Hpost, Hstatus, Hjson. simpl. unfold token_of.
  destruct (dict_lookup d "access_token"), (dict_lookup d "id_token"),
    (dict_lookup d "refresh_token"); reflexivity.
Qed.

Lemma successful_exchange_stores_tokens_witness :
  fst (RefreshOIDCToken_process_request
         (Example.env Example.example_settings (fun _ => 1500) Example.ok_200)
         Example.post_form (Example.world_of Example.stale_session))
  = Return None
  /\ session
       (snd (RefreshOIDCToken_process_request
               (Example.env Example.example_settings (fun _ => 1500)
                  Example.ok_200)
               Example.post_form (Example.world_of Example.stale_session)))
     !! "oidc_refresh_token" = Some (PStr "refresh2").
Proof.
  rewrite (successful_exchange_stores_tokens
             (Example.env Example.example_settings (fun _ => 1500) Example.ok_200)
             Example.post_form (Example.world_of Example.stale_session)
             (tick (tick (Example.world_of Example.stale_session)))
             (PStr "https://op.example/token")
             (token_payload (PStr "client") (PStr "secret") (PStr "refresh1"))
             {| status_code := 200;
                json := Return (PDict [("id_token", PStr "id2");
                                       ("access_token", PStr "access2");
                                       ("refresh_token", PStr "refresh2")]) |}
             [("id_token", PStr "id2"); ("access_token", PStr "access2");
              ("refresh_token", PStr "refresh2")]).
  - split; reflexivity.
  - exists (PStr "client"), (PStr "secret").
    split; [split; reflexivity |]. repeat split; reflexivity.
  - reflexivity.
  - reflexivity.
  - reflexivity.
Defined.

(** C9. The body of a 200 answer is not validated.  Whatever JSON object
    comes back, [process_request] returns [None]; a token the object leaves
    out reaches [store_tokens] as [None]. *)
Theorem incomplete_token_response_is_accepted (E : Env) (r : request)
    (w w2 : world) (token_url : pyval) (payload : list (string * pyval))
    (resp : http_response) (d : list (string * pyval)) :
  reaches_token_endpoint E r w token_url payload w2 ->
  requests_post E (List.length (posts w2)) token_url payload = Return resp ->
  status_code resp = 200 ->
  json resp = Return (PDict d) ->
  let w3 := store_expiration_times E (posted token_url payload w2) in
  exists access_token id_token refresh_token : pyval,
    RefreshOIDCToken_process_request E r w =
      (Return None, store_tokens E access_token id_token refresh_token w3)
    /\ (dict_lookup d "access_token" = None -> access_token = PNone)
    /\ (dict_lookup d "id_token" = None -> id_token = PNone)
    /\ (dict_lookup d "refresh_token" = None -> refresh_token = PNone)
    /\ (d = [] ->
        RefreshOIDCToken_process_request E r w =
          (Return None, store_tokens E PNone PNone PNone w3)).
Proof.
  intros Hreach Hpost Hstatus Hjson w3.
  exists (token_of d "access_token"), (token_of d "id_token"),
    (token_of d "refresh_token").
  rewrite (exchanger_posts E r w w2 token_url payload Hreach).
  rewrite Hpost, Hstatus, Hjson. simpl. fold w3.
  split; [reflexivity |].
  unfold token_of.
  repeat split; try (intros ->; reflexivity).
Qed.

Lemma incomplete_token_response_is_accepted_witness :
  fst (RefreshOIDCToken_process_request
         (Example.env Example.example_settings (fun _ => 1500)
            Example.ok_200_empty)
         Example.post_form (Example.world_of Example.stale_session))
  = Return None
  /\ session
       (snd (RefreshOIDCToken_process_request
               (Example.env Example.example_settings (fun _ => 1500)
                  Example.ok_200_empty)
               Example.post_form (Example.world_of Example.stale_session)))
     !! "oidc_refresh_token" = Some PNone.
Proof.
  destruct (incomplete_token_response_is_accepted
              (Example.env Example.example_settings (fun _ => 1500)
                 Example.ok_200_empty)
              Example.post_form (Example.world_of Example.stale_session)
              (tick (tick (Example.world_of Example.stale_session)))
              (PStr "https://op.example/token")
              (token_payload (PStr "client") (PStr "secret") (PStr "refresh1"))
              {| status_code := 200; json := Return (PDict []) |} [])
    as (a & i & t & _ & _ & _ & _ & Hempty).
  - exists (PStr "client"), (PStr "secret").
    split; [split; reflexivity |]. repeat split; reflexivity.
  - reflexivity.
  - reflexivity.
  - reflexivity.
  - rewrite (Hempty eq_refl). split; reflexivity.
Defined.

(** ** A missing refresh token *)

Lemma import_from_settings_missing (E : Env) attr e :
  import_from_settings E attr None = Raise e -> e = ImproperlyConfigured attr.
Proof.
  unfold import_from_settings. destruct (settings E !! attr); congruence.
Qed.

(** C6. When the request is refreshable, the ID token has expired, the
    refresh token is not considered expired, and the session holds no
    refresh token (the key is absent, or its value is [None] or empty),
    [process_request] raises [ImproperlyConfigured] and [requests.post] has
    not been called; with its three settings present the exception is
    "Refresh token missing." *)
Theorem missing_refresh_token_is_misconfiguration (E : Env) (r : request)
    (w w2 : world) :
  is_refreshable_url E r false w = Return true ->
  fst (is_expired E r w) = Return true ->
  _is_refresh_token_expired E r (tick w) = (Return false, w2) ->
  truthy (stored_refresh_token w) = false ->
  exists msg w',
    RefreshOIDCToken_process_request E r w = (Raise (ImproperlyConfigured msg), w')
    /\ posts w' = posts w
    /\ session w' = session w
    /\ (is_Some (settings E !! "OIDC_OP_TOKEN_ENDPOINT") ->
        is_Some (settings E !! "OIDC_RP_CLIENT_ID") ->
        is_Some (settings E !! "OIDC_RP_CLIENT_SECRET") ->
        msg = "Refresh token missing." /\ w' = w2).
Proof.
  intros Href Hexp Hrte Hnone.
  assert (Hw2 : only_clock_read w w2).
  { eapply is_refresh_token_expired_only_clock; [| exact Hrte].
    apply only_clock_read_tick, only_clock_read_refl. }
  destruct (settings E !! "OIDC_OP_TOKEN_ENDPOINT") as [tu |] eqn:Htu;
    [destruct (settings E !! "OIDC_RP_CLIENT_ID") as [ci |] eqn:Hci;
     [destruct (settings E !! "OIDC_RP_CLIENT_SECRET") as [cs |] eqn:Hcs |] |].
  - exists "Refresh token missing.", w2.
    rewrite (exchanger_no_refresh_token E r w w2 tu ci cs);
      [| split; assumption | assumption | assumption].
    destruct Hw2 as (Hs & _ & _ & Hp). auto.
  - exists "OIDC_RP_CLIENT_SECRET", (tick w).
    unfold RefreshOIDCToken_process_request.
    rewrite (bind_reading _ _ _ _ Href). cbv beta iota delta [negb].
    rewrite (bind_run _ _ _ _ _ (is_expired_run _ _ _ _ Hexp)).
    cbv beta iota delta [negb].
    rewrite (bind_lift _ _ _ _ (import_from_settings_required _ _ _ Htu)).
    rewrite (bind_lift _ _ _ _ (import_from_settings_required _ _ _ Hci)).
    unfold bind at 1, lift at 1, import_from_settings at 1. rewrite Hcs.
    do 3 (split; [reflexivity |]). intros _ _ [? H]. discriminate H.
  - exists "OIDC_RP_CLIENT_ID", (tick w).
    unfold RefreshOIDCToken_process_request.
    rewrite (bind_reading _ _ _ _ Href). cbv beta iota delta [negb].
    rewrite (bind_run _ _ _ _ _ (is_expired_run _ _ _ _ Hexp)).
    cbv beta iota delta [negb].
    rewrite (bind_lift _ _ _ _ (import_from_settings_required _ _ _ Htu)).
    unfold bind at 1, lift at 1, import_from_settings at 1. rewrite Hci.
    do 3 (split; [reflexivity |]). intros _ [? H]. discriminate H.
  - exists "OIDC_OP_TOKEN_ENDPOINT", (tick w).
    unfold RefreshOIDCToken_process_request.
    rewrite (bind_reading _ _ _ _ Href). cbv beta iota delta [negb].
    rewrite (bind_run _ _ _ _ _ (is_expired_run _ _ _ _ Hexp)).
    cbv beta iota delta [negb].
    unfold bind at 1, lift at 1, import_from_settings at 1. rewrite Htu.
    do 3 (split; [reflexivity |]). intros [? H]. discriminate H.
Qed.

Lemma missing_refresh_token_is_misconfiguration_witness :
  fst (RefreshOIDCToken_process_request
         (Example.env Example.example_settings (fun _ => 1500) Example.ok_200)
         Example.post_form
         (Example.world_of {[ "oidc_id_token_expiration" := PNum 1000 ]}))
  = Raise (ImproperlyConfigured "Refresh token missing.").
Proof.
  destruct (missing_refresh_token_is_misconfiguration
              (Example.env Example.example_settings (fun _ => 1500) Example.ok_200)
              Example.post_form
              (Example.world_of {[ "oidc_id_token_expiration" := PNum 1000 ]})
              (tick (tick (Example.world_of
                             {[ "oidc_id_token_expiration" := PNum 1000 ]}))))
    as (msg & w' & Hrun & _ & _ & Hmsg).
  - reflexivity.
  - reflexivity.
  - reflexivity.
  - reflexivity.
  - rewrite Hrun. destruct Hmsg as [-> _]; [by eexists | by eexists | by eexists |].
    reflexivity.
Defined.

(** ** The scenarios of the specification, evaluated *)

Example upper_examples :
  upper "get" = "GET" /\ upper "Post" = "POST" /\ upper "GET" = "GET".
Proof. repeat split. Qed.

(** An expired session on GET /dashboard is redirected with [prompt=none],
    and the session remembers where to come back to. *)
Example expired_GET_is_redirected :
  SessionRefresh_process_request
    (Example.env Example.example_settings (fun _ => 1000) Example.ok_200)
    Example.get_dashboard
    (Example.world_of {[ "oidc_id_token_expiration" := PNum 0 ]})
  = (Return (Some (HttpResponseRedirect
       ("https://op.example/auth?response_type=code&client_id=client"
        +:+ "&redirect_uri=https%3A%2F%2Frp.example%2Foidc%2Fcallback%2F"
        +:+ "&state=state&scope=openid+email&prompt=none&nonce=nonce"))),
     session_set "oidc_login_next" (PStr "/dashboard?tab=1")
       (session_set "oidc_state_state" (PBool true)
          (drawn (drawn (tick (Example.world_of
                                 {[ "oidc_id_token_expiration" := PNum 0 ]})))))).
Proof. reflexivity. Qed.

(** An exempt path is left alone whatever the expiration says. *)
Example exempt_path_is_skipped :
  SessionRefresh_process_request
    (Example.env Example.example_settings (fun _ => 1000) Example.ok_200)
    {| method := "GET"; path := "/about/"; get_full_path := "/about/";
       is_ajax := false |}
    (Example.world_of ∅)
  = (Return None, Example.world_of ∅).
Proof. reflexivity. Qed.

(** A POST whose refresh token has run out: logged out, then forbidden. *)
Example expired_POST_is_logged_out :
  RefreshOIDCToken_process_request
    (Example.env Example.example_settings (fun _ => 5000) Example.ok_200)
    Example.post_form (Example.world_of Example.stale_session)
  = (Raise (PermissionDenied "Refresh token expired on POST."),
     Example.example_logout (tick (tick (Example.world_of Example.stale_session)))).
Proof. reflexivity. Qed.

(** A rejected refresh on POST ends the same way, after one call of the
    token endpoint. *)
Example rejected_POST_is_logged_out :
  RefreshOIDCToken_process_request
    (Example.env Example.example_settings (fun _ => 1500) Example.rejected_400)
    Example.post_form (Example.world_of Example.stale_session)
  = (Raise (PermissionDenied "Refresh token expired on POST."),
     Example.example_logout
       (posted (PStr "https://op.example/token")
          (token_payload (PStr "client") (PStr "secret") (PStr "refresh1"))
          (tick (tick (Example.world_of Example.stale_session))))).
Proof. reflexivity. Qed.

(** * Further properties of the middleware *)

(** ** Requests the filter turns away *)

Lemma bind_reading_raise {A B} (f : world -> result A) (k : A -> M B) w e :
  f w = Raise e -> bind (reading f) k w = (Raise e, w).
Proof. unfold bind, reading. intros ->. reflexivity. Qed.

Lemma not_refreshable_passes_through (E : Env) (r : request) (w : world) :
  (is_refreshable_url E r true w = Return false ->
   SessionRefresh_process_request E r w = (Return None, w))
  /\ (is_refreshable_url E r false w = Return false ->
      RefreshOIDCToken_process_request E r w = (Return None, w)).
Proof.
  split; intros H.
  - unfold SessionRefresh_process_request.
    rewrite (bind_reading _ _ _ _ H). reflexivity.
  - unfold RefreshOIDCToken_process_request.
    rewrite (bind_reading _ _ _ _ H). reflexivity.
Qed.

(** An anonymous user is never refreshed: the filter answers [False] without
    resolving the exempt URLs, and both middlewares let the request pass
    untouched. *)
Theorem anonymous_user_passes_through (E : Env) (r : request) (w : world) :
  user_is_authenticated w = false ->
  (truthy (default PNone (session w !! BACKEND_SESSION_KEY)) = true ->
   exists cls,
     import_string E (default PNone (session w !! BACKEND_SESSION_KEY))
     = Return cls) ->
  (forall get_only, is_refreshable_url E r get_only w = Return false)
  /\ SessionRefresh_process_request E r w = (Return None, w)
  /\ RefreshOIDCToken_process_request E r w = (Return None, w).
Proof.
  intros Hanon Himp.
  assert (Hno : forall get_only, is_refreshable_url E r get_only w = Return false).
  { intros get_only. unfold is_refreshable_url. rewrite Hanon.
    destruct (truthy _).
    - destruct (Himp eq_refl) as [cls ->]. simpl.
      destruct (negb get_only || _); reflexivity.
    - simpl. destruct (negb get_only || _); reflexivity. }
  split; [exact Hno |].
  split; apply not_refreshable_passes_through, Hno.
Qed.

Lemma anonymous_user_passes_through_witness :
  RefreshOIDCToken_process_request
    (Example.env Example.example_settings (fun _ => 5000) Example.ok_200)
    Example.post_form
    {| session := Example.stale_session; user_is_authenticated := false;
       clock_reads := 0; random_draws := 0; posts := [] |}
  = (Return None,
     {| session := Example.stale_session; user_is_authenticated := false;
        clock_reads := 0; random_draws := 0; posts := [] |}).
Proof.
  apply (anonymous_user_passes_through
           (Example.env Example.example_settings (fun _ => 5000) Example.ok_200)
           Example.post_form).
  - reflexivity.
  - intros H. discriminate H.
Defined.

(** A session that was authenticated by a backend that is not a subclass of
    [OIDCAuthenticationBackend] is never refreshed, whatever its tokens say. *)
Theorem other_backend_passes_through (E : Env) (r : request) (w : world)
    (cls : pyclass) :
  truthy (default PNone (session w !! BACKEND_SESSION_KEY)) = true ->
  import_string E (default PNone (session w !! BACKEND_SESSION_KEY)) = Return cls ->
  issubclass E cls OIDCAuthenticationBackend = false ->
  (forall get_only, is_refreshable_url E r get_only w = Return false)
  /\ SessionRefresh_process_request E r w = (Return None, w)
  /\ RefreshOIDCToken_process_request E r w = (Return None, w).
Proof.
  intros Ht Himp Hsub.
  assert (Hno : forall get_only, is_refreshable_url E r get_only w = Return false).
  { intros get_only. unfold is_refreshable_url. rewrite Ht, Himp. simpl.
    rewrite Hsub. destruct (negb get_only || _); [| reflexivity].
    destruct (user_is_authenticated w); reflexivity. }
  split; [exact Hno |].
  split; apply not_refreshable_passes_through, Hno.
Qed.

Lemma other_backend_passes_through_witness :
  SessionRefresh_process_request
    (Example.env Example.example_settings (fun _ => 5000) Example.ok_200)
    Example.get_dashboard
    (Example.world_of
       {[ BACKEND_SESSION_KEY := PStr "django.contrib.auth.backends.ModelBackend" ]})
  = (Return None,
     Example.world_of
       {[ BACKEND_SESSION_KEY := PStr "django.contrib.auth.backends.ModelBackend" ]}).
Proof.
  apply (other_backend_passes_through
           (Example.env Example.example_settings (fun _ => 5000) Example.ok_200)
           Example.get_dashboard
           (Example.world_of
              {[ BACKEND_SESSION_KEY :=
                   PStr "django.contrib.auth.backends.ModelBackend" ]})
           "django.contrib.auth.backends.ModelBackend").
  - reflexivity.
  - reflexivity.
  - reflexivity.
Defined.

(** The recorded backend is imported before anything else is looked at: when
    it cannot be imported, the filter raises for every request, exempt paths
    and anonymous users included, and so do both middlewares. *)
Theorem broken_backend_raises (E : Env) (r : request) (w : world) (e : exn) :
  truthy (default PNone (session w !! BACKEND_SESSION_KEY)) = true ->
  import_string E (default PNone (session w !! BACKEND_SESSION_KEY)) = Raise e ->
  (forall get_only, is_refreshable_url E r get_only w = Raise e)
  /\ SessionRefresh_process_request E r w = (Raise e, w)
  /\ RefreshOIDCToken_process_request E r w = (Raise e, w).
Proof.
  intros Ht Himp.
  assert (Hraise : forall get_only, is_refreshable_url E r get_only w = Raise e).
  { intros get_only. unfold is_refreshable_url. rewrite Ht, Himp. reflexivity. }
  split; [exact Hraise |]. split.
  - unfold SessionRefresh_process_request.
    apply bind_reading_raise, Hraise.
  - unfold RefreshOIDCToken_process_request.
    apply bind_reading_raise, Hraise.
Qed.

Lemma broken_backend_raises_witness :
  SessionRefresh_process_request
    (Example.env Example.example_settings (fun _ => 5000) Example.ok_200)
    {| method := "GET"; path := "/health/"; get_full_path := "/health/";
       is_ajax := false |}
    (Example.world_of {[ BACKEND_SESSION_KEY := PStr "gone.Backend" ]})
  = (Raise (Foreign "ImportError"),
     Example.world_of {[ BACKEND_SESSION_KEY := PStr "gone.Backend" ]}).
Proof.
  apply (broken_backend_raises
           (Example.env Example.example_settings (fun _ => 5000) Example.ok_200)
           {| method := "GET"; path := "/health/"; get_full_path := "/health/";
              is_ajax := false |}
           (Example.world_of {[ BACKEND_SESSION_KEY := PStr "gone.Backend" ]})).
  - reflexivity.
  - reflexivity.
Defined.

(** [SessionRefresh] only ever acts on GET: a request with any other method
    gets no response from it and its session is left as it was. *)
Theorem SessionRefresh_ignores_other_methods (E : Env) (r : request) (w : world) :
  method r <> "GET" ->
  (forall resp, fst (SessionRefresh_process_request E r w) <> Return (Some resp))
  /\ snd (SessionRefresh_process_request E r w) = w.
Proof.
  intros Hm. apply String.eqb_neq in Hm.
  unfold SessionRefresh_process_request, bind, reading, is_refreshable_url.
  rewrite Hm. simpl.
  destruct (truthy _).
  - destruct (import_string E _) as [cls | e]; simpl; split; congruence.
  - simpl. split; congruence.
Qed.

Lemma SessionRefresh_ignores_other_methods_witness :
  snd (SessionRefresh_process_request
         (Example.env Example.example_settings (fun _ => 5000) Example.ok_200)
         Example.post_form (Example.world_of Example.stale_session))
  = Example.world_of Example.stale_session.
Proof.
  apply (SessionRefresh_ignores_other_methods
           (Example.env Example.example_settings (fun _ => 5000) Example.ok_200)
           Example.post_form (Example.world_of Example.stale_session)).
  discriminate.
Defined.

(** ** The exempt URLs *)

Lemma resolve_urls_app (E : Env) (l1 l2 : list pyval) :
  resolve_urls E (l1 ++ l2) =
    rbind (resolve_urls E l1) (fun p1 =>
    rbind (resolve_urls E l2) (fun p2 => Return (p1 ++ p2)%list)).
Proof.
  induction l1 as [| url l1 IH]; simpl.
  - destruct (resolve_urls E l2); reflexivity.
  - destruct (startswith_slash url) as [verbatim | e]; simpl; [| reflexivity].
    destruct (if verbatim then _ else _) as [p | e]; simpl; [| reflexivity].
    rewrite IH.
    destruct (resolve_urls E l1) as [p1 | e]; simpl; [| reflexivity].
    destruct (resolve_urls E l2) as [p2 | e]; reflexivity.
Qed.

(** Whatever [OIDC_EXEMPT_URLS] holds, the paths of the three views of the
    package (login, callback, logout) are in the exempt set, and a request
    to one of them is never found refreshable. *)
Theorem oidc_views_are_exempt (E : Env) (exempt : gset string)
    (view p : string) :
  exempt_urls E = Return exempt ->
  view ∈ oidc_views ->
  reverse E (PStr view) = Return p ->
  p ∈ exempt
  /\ forall r get_only w,
       path r = p -> is_refreshable_url E r get_only w <> Return true.
Proof.
  intros Hex Hview Hrev.
  assert (Hin : p ∈ exempt).
  { revert Hex. unfold exempt_urls, get_settings.
    rewrite import_from_settings_default. cbn [rbind].
    match goal with
    | |- context [py_list ?v] => destruct (py_list v) as [urls | e]
    end; simpl; [| discriminate].
    rewrite resolve_urls_app.
    destruct (resolve_urls E urls) as [p1 | e]; simpl; [| discriminate].
    destruct (reverse E (PStr "oidc_authentication_init")) as [q1 | e] eqn:H1;
      simpl; [| discriminate].
    destruct (reverse E (PStr "oidc_authentication_callback")) as [q2 | e] eqn:H2;
      simpl; [| discriminate].
    destruct (reverse E (PStr "oidc_logout")) as [q3 | e] eqn:H3;
      simpl; [| discriminate].
    intros [= <-]. apply elem_of_list_to_set, elem_of_app. right.
    unfold oidc_views in Hview.
    repeat (apply elem_of_cons in Hview as [-> | Hview];
            [assert (Heq : Return (A:=string) p = Return _) by
               (rewrite <- Hrev; first [exact H1 | exact H2 | exact H3]);
             injection Heq as ->; set_solver |]).
    by apply elem_of_nil in Hview. }
  split; [exact Hin |].
  intros r get_only w Hp. unfold is_refreshable_url. rewrite Hex, Hp.
  destruct (if truthy _ then _ else _) as [[] | e]; simpl; try discriminate;
    destruct (negb get_only || _); try discriminate;
    destruct (user_is_authenticated w); try discriminate.
  rewrite bool_decide_eq_false_2; [discriminate |]. intros Hn. exact (Hn Hin).
Qed.

Lemma oidc_views_are_exempt_witness :
  is_refreshable_url
    (Example.env Example.example_settings (fun _ => 5000) Example.ok_200)
    {| method := "GET"; path := "/oidc/callback/";
       get_full_path := "/oidc/callback/?code=x"; is_ajax := false |}
    true (Example.world_of ∅)
  <> Return true.
Proof.
  destruct (exempt_urls
              (Example.env Example.example_settings (fun _ => 5000) Example.ok_200))
    as [exempt | e] eqn:Hex; [| discriminate Hex].
  apply (oidc_views_are_exempt
           (Example.env Example.example_settings (fun _ => 5000) Example.ok_200)
           exempt "oidc_authentication_callback" "/oidc/callback/" Hex).
  - unfold oidc_views. set_solver.
  - reflexivity.
  - reflexivity.
Defined.

Lemma resolve_urls_verbatim (E : Env) (urls : list pyval) (ps : list string)
    (u : string) :
  resolve_urls E urls = Return ps ->
  PStr u ∈ urls -> String.prefix "/" u = true -> u ∈ ps.
Proof.
  revert ps. induction urls as [| url urls IH]; intros ps Hres Hin Hpre.
  - by apply elem_of_nil in Hin.
  - simpl in Hres.
    destruct (startswith_slash url) as [verbatim | e] eqn:Hsw; simpl in Hres;
      [| discriminate Hres].
    destruct (if verbatim then _ else _) as [p | e] eqn:Hp; simpl in Hres;
      [| discriminate Hres].
    destruct (resolve_urls E urls) as [ps' | e]; simpl in Hres;
      [| discriminate Hres].
    injection Hres as <-.
    apply elem_of_cons in Hin as [<- | Hin].
    + simpl in Hsw. rewrite Hpre in Hsw. injection Hsw as <-.
      injection Hp as <-. by left.
    + right. by apply IH.
Qed.

(** An entry of [OIDC_EXEMPT_URLS] that starts with "/" is exempt as it is
    written, without being looked up in the URL configuration, and a request
    to that path is never found refreshable. *)
Theorem absolute_exempt_url_is_verbatim (E : Env) (exempt : gset string)
    (configured : list pyval) (u : string) :
  exempt_urls E = Return exempt ->
  default (PList []) (settings E !! "OIDC_EXEMPT_URLS") = PList configured ->
  PStr u ∈ configured ->
  String.prefix "/" u = true ->
  u ∈ exempt
  /\ forall r get_only w,
       path r = u -> is_refreshable_url E r get_only w <> Return true.
Proof.
  intros Hex Hcfg Hin Hpre.
  assert (Hu : u ∈ exempt).
  { revert Hex. unfold exempt_urls, get_settings.
    rewrite import_from_settings_default, Hcfg. cbn [rbind py_list].
    destruct (resolve_urls E _) as [ps | e] eqn:Hres; simpl; [| discriminate].
    intros [= <-]. apply elem_of_list_to_set.
    apply (resolve_urls_verbatim E _ ps u Hres); [| exact Hpre].
    apply elem_of_app. by left. }
  split; [exact Hu |].
  intros r get_only w Hp. unfold is_refreshable_url. rewrite Hex, Hp.
  destruct (if truthy _ then _ else _) as [[] | e]; simpl; try discriminate;
    destruct (negb get_only || _); try discriminate;
    destruct (user_is_authenticated w); try discriminate.
  rewrite bool_decide_eq_false_2; [discriminate |]. intros Hn. exact (Hn Hu).
Qed.

Lemma absolute_exempt_url_is_verbatim_witness :
  is_refreshable_url
    (Example.env Example.example_settings (fun _ => 5000) Example.ok_200)
    {| method := "GET"; path := "/health/"; get_full_path := "/health/";
       is_ajax := false |}
    false (Example.world_of Example.stale_session)
  <> Return true.
Proof.
  destruct (exempt_urls
              (Example.env Example.example_settings (fun _ => 5000) Example.ok_200))
    as [exempt | e] eqn:Hex; [| discriminate Hex].
  apply (absolute_exempt_url_is_verbatim
           (Example.env Example.example_settings (fun _ => 5000) Example.ok_200)
           exempt [PStr "/health/"; PStr "about"] "/health/" Hex).
  - reflexivity.
  - by left.
  - reflexivity.
  - reflexivity.
Defined.

Lemma resolve_urls_unresolvable (E : Env) (names : list string)
    (rest : list pyval) (u : string) (e : exn) :
  u ∈ names -> String.prefix "/" u = false -> reverse E (PStr u) = Raise e ->
  exists e', resolve_urls E (map PStr names ++ rest) = Raise e'.
Proof.
  intros Hin Hpre Hrev.
  induction names as [| u' names IH]; [by apply elem_of_nil in Hin |].
  apply elem_of_cons in Hin as [<- | Hin].
  - exists e. simpl. rewrite Hpre, Hrev. reflexivity.
  - destruct (IH Hin) as [e' He']. simpl. rewrite He'.
    destruct (String.prefix "/" u'); simpl; [by exists e' |].
    destruct (reverse E (PStr u')) as [p | e'']; simpl; by eexists.
Qed.

(** One view name in [OIDC_EXEMPT_URLS] that does not resolve makes the
    exempt set fail: [exempt_urls] raises, and no request is found
    refreshable any more (the filter answers [False] or raises). *)
Theorem unresolvable_exempt_url_raises (E : Env) (names : list string)
    (u : string) (e : exn) :
  default (PList []) (settings E !! "OIDC_EXEMPT_URLS") = PList (map PStr names) ->
  u ∈ names -> String.prefix "/" u = false -> reverse E (PStr u) = Raise e ->
  (exists e', exempt_urls E = Raise e')
  /\ forall r get_only w, is_refreshable_url E r get_only w <> Return true.
Proof.
  intros Hcfg Hin Hpre Hrev.
  assert (Hex : exists e', exempt_urls E = Raise e').
  { unfold exempt_urls, get_settings.
    rewrite import_from_settings_default, Hcfg. simpl.
    destruct (resolve_urls_unresolvable E names
                [PStr "oidc_authentication_init";
                 PStr "oidc_authentication_callback"; PStr "oidc_logout"]
                u e Hin Hpre Hrev) as [e' ->].
    by exists e'. }
  split; [exact Hex |].
  destruct Hex as [e' Hex].
  intros r get_only w. unfold is_refreshable_url. rewrite Hex.
  destruct (if truthy _ then _ else _) as [[] | e'']; simpl; try discriminate;
    destruct (negb get_only || _); try discriminate;
    destruct (user_is_authenticated w); discriminate.
Qed.

Lemma unresolvable_exempt_url_raises_witness :
  exists e',
    exempt_urls
      (Example.env
         (<[ "OIDC_EXEMPT_URLS" := PList [PStr "/health/"; PStr "missing_view"] ]>
            Example.example_settings)
         (fun _ => 5000) Example.ok_200)
    = Raise e'.
Proof.
  apply (unresolvable_exempt_url_raises
           (Example.env
              (<[ "OIDC_EXEMPT_URLS" :=
                    PList [PStr "/health/"; PStr "missing_view"] ]>
                 Example.example_settings)
              (fun _ => 5000) Example.ok_200)
           ["/health/"; "missing_view"] "missing_view"
           (Foreign "NoReverseMatch")).
  - reflexivity.
  - set_solver.
  - reflexivity.
  - reflexivity.
Defined.

(** ** The expiry checks *)

(** Neither expiry check writes anything, whether it returns or raises:
    [is_expired] reads the clock once, [_is_refresh_token_expired] at most
    once, and the session, the user, the random generator and the HTTP
    client are as before. *)
Theorem expiry_checks_only_read (E : Env) (r : request) (w : world) :
  snd (is_expired E r w) = tick w
  /\ only_clock_read w (snd (_is_refresh_token_expired E r w))
  /\ (clock_reads (snd (_is_refresh_token_expired E r w)) <= S (clock_reads w))%nat.
Proof.
  split; [apply is_expired_world |].
  destruct (is_refresh_token_expired_world E r w) as [-> | ->].
  - split; [apply only_clock_read_refl | lia].
  - split; [apply only_clock_read_tick, only_clock_read_refl | simpl; lia].
Qed.

(** A non-zero refresh-token expiry needs
    [OIDC_RENEW_ID_TOKEN_EXPIRY_SECONDS]: without it
    [_is_refresh_token_expired] raises [ImproperlyConfigured] before the
    clock is read, and so does an exchange that got past its guards, without
    calling the token endpoint. *)
Theorem refresh_deadline_needs_id_expiry (E : Env) (r : request) (w : world) :
  truthy (default (PNum 0)
            (settings E !! "OIDC_RENEW_REFRESH_TOKEN_EXPIRY_SECONDS")) = true ->
  settings E !! "OIDC_RENEW_ID_TOKEN_EXPIRY_SECONDS" = None ->
  exists msg,
    (forall w0, _is_refresh_token_expired E r w0
                = (Raise (ImproperlyConfigured msg), w0))
    /\ forall token_url client_id client_secret,
         exchanger_runs E r w token_url client_id client_secret ->
         RefreshOIDCToken_process_request E r w
         = (Raise (ImproperlyConfigured msg), tick w).
Proof.
  intros Hrt Hid. exists "OIDC_RENEW_ID_TOKEN_EXPIRY_SECONDS".
  assert (Hrte : forall w0, _is_refresh_token_expired E r w0
                 = (Raise (ImproperlyConfigured
                             "OIDC_RENEW_ID_TOKEN_EXPIRY_SECONDS"), w0)).
  { intros w0. unfold _is_refresh_token_expired.
    rewrite (bind_lift _ _ _ _ (import_from_settings_default E _ _)).
    rewrite Hrt. cbv beta iota delta [negb].
    rewrite bind_session_get.
    unfold bind at 1, lift at 1, import_from_settings at 1. rewrite Hid.
    reflexivity. }
  split; [exact Hrte |].
  intros tu ci cs Hruns. exchanger_prefix Hruns.
  apply bind_raise, Hrte.
Qed.

Lemma refresh_deadline_needs_id_expiry_witness :
  exists msg,
    RefreshOIDCToken_process_request
      (Example.env (delete "OIDC_RENEW_ID_TOKEN_EXPIRY_SECONDS"
                      Example.example_settings)
         (fun _ => 1500) Example.ok_200)
      Example.post_form (Example.world_of Example.stale_session)
    = (Raise (ImproperlyConfigured msg),
       tick (Example.world_of Example.stale_session)).
Proof.
  destruct (refresh_deadline_needs_id_expiry
              (Example.env (delete "OIDC_RENEW_ID_TOKEN_EXPIRY_SECONDS"
                              Example.example_settings)
                 (fun _ => 1500) Example.ok_200)
              Example.post_form (Example.world_of Example.stale_session))
    as (msg & _ & Hrun).
  - reflexivity.
  - reflexivity.
  - exists msg.
    apply (Hrun (PStr "https://op.example/token") (PStr "client") (PStr "secret")).
    split; reflexivity.
Defined.

Lemma is_expired_later_witness :
  fst (is_expired
         (Example.env Example.example_settings (fun n => 1500 + Z.of_nat n)
            Example.ok_200)
         Example.post_form (tick (tick (Example.world_of Example.stale_session))))
  = Return true.
Proof.
  apply (is_expired_later
           (Example.env Example.example_settings (fun n => 1500 + Z.of_nat n)
              Example.ok_200)
           Example.post_form (Example.world_of Example.stale_session)).
  - reflexivity.
  - reflexivity.
  - simpl. lia.
Defined.

(** ** The silent re-authentication *)

(** A silent re-authentication that cannot be built, because
    [OIDC_OP_AUTHORIZATION_ENDPOINT] or [OIDC_RP_CLIENT_ID] is missing or the
    callback route does not resolve, raises before line 137: the session
    and the user are as they were, with no state, nonce or
    [oidc_login_next] stored. *)
Theorem misconfigured_reauthentication_writes_nothing (E : Env) (r : request)
    (w : world) :
  is_refreshable_url E r true w = Return true ->
  fst (is_expired E r w) = Return true ->
  (settings E !! "OIDC_OP_AUTHORIZATION_ENDPOINT" = None
   \/ settings E !! "OIDC_RP_CLIENT_ID" = None
   \/ exists e,
        reverse E (default (PStr "oidc_authentication_callback")
                     (settings E !! "OIDC_AUTHENTICATION_CALLBACK_URL"))
        = Raise e) ->
  exists e w',
    SessionRefresh_process_request E r w = (Raise e, w')
    /\ session w' = session w
    /\ user_is_authenticated w' = user_is_authenticated w.
Proof.
  intros Href Hexp Hcause.
  unfold SessionRefresh_process_request.
  rewrite (bind_reading _ _ _ _ Href). cbv beta iota delta [negb].
  rewrite (bind_run _ _ _ _ _ (is_expired_run E r w true Hexp)).
  cbv beta iota delta [negb].
  unfold silent_reauthentication, get_settings.
  rewrite !import_from_settings_default.
  unfold bind, lift, random_string, modify, ret, import_from_settings.
  destruct (settings E !! "OIDC_OP_AUTHORIZATION_ENDPOINT") as [au |];
    [| by eexists _, _].
  destruct (settings E !! "OIDC_RP_CLIENT_ID") as [ci |]; [| by eexists _, _].
  destruct Hcause as [H | [H | [e H]]]; [discriminate H | discriminate H |].
  rewrite H. by eexists _, _.
Qed.

Lemma misconfigured_reauthentication_writes_nothing_witness :
  exists e w',
    SessionRefresh_process_request
      (Example.env (delete "OIDC_RP_CLIENT_ID" Example.example_settings)
         (fun _ => 5000) Example.ok_200)
      Example.get_dashboard (Example.world_of Example.stale_session)
    = (Raise e, w')
    /\ session w' = Example.stale_session.
Proof.
  destruct (misconfigured_reauthentication_writes_nothing
              (Example.env (delete "OIDC_RP_CLIENT_ID" Example.example_settings)
                 (fun _ => 5000) Example.ok_200)
              Example.get_dashboard (Example.world_of Example.stale_session))
    as (e & w' & Hrun & Hs & _).
  - vm_compute. reflexivity.
  - reflexivity.
  - right. left. reflexivity.
  - exists e, w'. split; [exact Hrun | exact Hs].
Defined.

(** When the silent re-authentication fires, the state it hands to
    [add_state_and_nonce_to_session] is the [state] parameter of the URL it
    answers with; the parameters carry [response_type=code], the client id
    and [prompt=none], and a nonce exactly when [OIDC_USE_NONCE] is truthy
    (it is by default); the session ends with [oidc_login_next] set to the
    full path of the request. *)
Theorem reauthentication_binds_state (E : Env) (r : request) (w : world)
    (auth_url client_id : pyval) (callback_path : string) :
  is_refreshable_url E r true w = Return true ->
  fst (is_expired E r w) = Return true ->
  initiator_configured E auth_url client_id callback_path ->
  exists (state : string) (params : list (string * pyval)) (w1 : world),
    SessionRefresh_process_request E r w =
      (Return (Some (refresh_response r
                       (py_str E auth_url +:+ "?" +:+ urlencode E params))),
       session_set "oidc_login_next" (PStr (get_full_path r))
         (add_state_and_nonce_to_session E r state params w1))
    /\ session w1 = session w
    /\ dict_lookup params "state" = Some (PStr state)
    /\ dict_lookup params "response_type" = Some (PStr "code")
    /\ dict_lookup params "client_id" = Some client_id
    /\ dict_lookup params "prompt" = Some (PStr "none")
    /\ (is_Some (dict_lookup params "nonce") <->
        truthy (default (PBool true) (settings E !! "OIDC_USE_NONCE")) = true)
    /\ session (snd (SessionRefresh_process_request E r w)) !! "oidc_login_next"
       = Some (PStr (get_full_path r)).
Proof.
  intros Href Hexp Hconf.
  rewrite (SessionRefresh_process_request_run E r w _ _ _ Href Hexp Hconf).
  exists (reauth_state E (tick w)),
    (reauth_params E r (tick w) client_id callback_path),
    (if reauth_use_nonce E then drawn (drawn (tick w)) else drawn (tick w)).
  split; [reflexivity |].
  split; [destruct (reauth_use_nonce E); reflexivity |].
  unfold reauth_params, reauth_use_nonce.
  do 4 (split; [reflexivity |]).
  split.
  - destruct (truthy _); simpl; split.
    + reflexivity.
    + intros _. eexists. reflexivity.
    + intros [? H]. discriminate H.
    + discriminate.
  - simpl. apply lookup_insert_eq.
Qed.

Lemma reauthentication_binds_state_witness :
  session
    (snd (SessionRefresh_process_request
            (Example.env Example.example_settings (fun _ => 5000) Example.ok_200)
            Example.get_dashboard (Example.world_of Example.stale_session)))
    !! "oidc_login_next"
  = Some (PStr "/dashboard?tab=1").
Proof.
  destruct (reauthentication_binds_state
              (Example.env Example.example_settings (fun _ => 5000) Example.ok_200)
              Example.get_dashboard (Example.world_of Example.stale_session)
              (PStr "https://op.example/auth") (PStr "client") "/oidc/callback/")
    as (state & params & w1 & _ & _ & _ & _ & _ & _ & _ & Hnext).
  - vm_compute. reflexivity.
  - reflexivity.
  - split; reflexivity.
  - exact Hnext.
Defined.

(** ** What the exchanger never does *)

Lemma handle_refresh_token_expire_other_method (E : Env) (r : request)
    (w : world) :
  upper (method r) <> "GET" ->
  _handle_refresh_token_expire E r w =
    (Raise (PermissionDenied "Refresh token expired on POST."),
     django_logout E w).
Proof.
  intros Hm. rewrite handle_refresh_token_expire_run.
  apply String.eqb_neq in Hm. rewrite Hm, andb_false_r. reflexivity.
Qed.

(** [RefreshOIDCToken] never answers a request whose method is not GET with
    a response of its own (no redirect, no 403): such a request passes
    through or ends in an exception, whatever the settings say. *)
Theorem RefreshOIDCToken_never_answers_other_methods (E : Env) (r : request)
    (w : world) :
  upper (method r) <> "GET" ->
  forall resp,
    fst (RefreshOIDCToken_process_request E r w) <> Return (Some resp).
Proof.
  intros Hm resp.
  pose proof (fun w0 => handle_refresh_token_expire_other_method E r w0 Hm)
    as Hhandle.
  unfold RefreshOIDCToken_process_request, bind, reading, lift, session_get,
    post, modify, ret, raise.
  destruct (is_refreshable_url E r false w) as [[] | e]; simpl;
    try discriminate.
  destruct (is_expired E r w) as [[[] | e] w1]; simpl; try discriminate.
  destruct (import_from_settings E "OIDC_OP_TOKEN_ENDPOINT" None) as [tu | e];
    try discriminate.
  destruct (import_from_settings E "OIDC_RP_CLIENT_ID" None) as [ci | e];
    try discriminate.
  destruct (import_from_settings E "OIDC_RP_CLIENT_SECRET" None) as [cs | e];
    try discriminate.
  destruct (_is_refresh_token_expired E r w1) as [[[] | e] w2]; simpl;
    rewrite ?Hhandle; try discriminate.
  destruct (truthy _); simpl; try discriminate.
  destruct (requests_post E _ _ _) as [answer | e]; try discriminate.
  destruct (status_code answer =? 200); simpl; rewrite ?Hhandle;
    try discriminate.
  destruct (json answer) as [[| | | | | | d] | e]; simpl; discriminate.
Qed.

Lemma RefreshOIDCToken_never_answers_other_methods_witness :
  fst (RefreshOIDCToken_process_request
         (Example.env Example.renewing_settings (fun _ => 5000) Example.ok_200)
         Example.post_form (Example.world_of Example.stale_session))
  <> Return (Some (HttpResponseRedirect "https://op.example/auth")).
Proof.
  apply (RefreshOIDCToken_never_answers_other_methods
           (Example.env Example.renewing_settings (fun _ => 5000) Example.ok_200)
           Example.post_form (Example.world_of Example.stale_session)).
  discriminate.
Defined.

(** A 200 answer whose body is not a JSON object is not stored: the
    exception of [response.json()], or the [AttributeError] of [.get] on
    something that is not a dict, leaves [process_request] with the session
    as it was; [store_expiration_times] and [store_tokens] are not reached. *)
Theorem malformed_token_response_raises (E : Env) (r : request) (w w2 : world)
    (token_url : pyval) (payload : list (string * pyval))
    (resp : http_response) :
  reaches_token_endpoint E r w token_url payload w2 ->
  requests_post E (List.length (posts w2)) token_url payload = Return resp ->
  status_code resp = 200 ->
  (forall d, json resp <> Return (PDict d)) ->
  exists e,
    RefreshOIDCToken_process_request E r w = (Raise e, posted token_url payload w2)
    /\ session (posted token_url payload w2) = session w
    /\ (forall e', json resp = Raise e' -> e = e')
    /\ (forall v, json resp = Return v -> e = AttributeError).
Proof.
  intros Hreach Hpost Hstatus Hbody.
  destruct (reaches_token_endpoint_world E r w w2 _ _ Hreach) as (Hs & _).
  rewrite (exchanger_posts E r w w2 token_url payload Hreach), Hpost, Hstatus.
  simpl.
  destruct (json resp) as [[| | | | | | d] | e];
    try (exists AttributeError; repeat split; congruence).
  - exfalso. exact (Hbody d eq_refl).
  - exists e. repeat split; congruence.
Qed.

Lemma malformed_token_response_raises_witness :
  exists e,
    RefreshOIDCToken_process_request
      (Example.env Example.example_settings (fun _ => 1500)
         (Return {| status_code := 200;
                    json := Raise (Foreign "json.JSONDecodeError") |}))
      Example.post_form (Example.world_of Example.stale_session)
    = (Raise e,
       posted (PStr "https://op.example/token")
         (token_payload (PStr "client") (PStr "secret") (PStr "refresh1"))
         (tick (tick (Example.world_of Example.stale_session)))).
Proof.
  destruct (malformed_token_response_raises
              (Example.env Example.example_settings (fun _ => 1500)
                 (Return {| status_code := 200;
                            json := Raise (Foreign "json.JSONDecodeError") |}))
              Example.post_form (Example.world_of Example.stale_session)
              (tick (tick (Example.world_of Example.stale_session)))
              (PStr "https://op.example/token")
              (token_payload (PStr "client") (PStr "secret") (PStr "refresh1"))
              {| status_code := 200;
                 json := Raise (Foreign "json.JSONDecodeError") |})
    as (e & Hrun & _).
  - exists (PStr "client"), (PStr "secret").
    split; [split; reflexivity |]. repeat split; reflexivity.
  - reflexivity.
  - reflexivity.
  - intros d H. discriminate H.
  - exists e. exact Hrun.
Defined.

(** The renewal branch upper-cases the method, the filter of
    [SessionRefresh] does not: for a method that only spells GET in another
    case, [_handle_refresh_token_expire] neither logs out nor redirects; the
    delegate turns the request away and it passes through. *)
Theorem renewal_of_lowercase_GET_passes_through (E : Env) (r : request)
    (w : world) :
  truthy (default (PBool false) (settings E !! "OIDC_RENEW_REFRESH_TOKEN")) = true ->
  upper (method r) = "GET" ->
  method r <> "GET" ->
  (truthy (default PNone (session w !! BACKEND_SESSION_KEY)) = true ->
   exists cls,
     import_string E (default PNone (session w !! BACKEND_SESSION_KEY))
     = Return cls) ->
  _handle_refresh_token_expire E r w = (Return None, w).
Proof.
  intros Hrenew Hup Hm Himp.
  rewrite handle_refresh_token_expire_run, Hrenew, Hup. simpl.
  apply not_refreshable_passes_through.
  unfold is_refreshable_url. apply String.eqb_neq in Hm. rewrite Hm. simpl.
  destruct (truthy (default PNone (session w !! BACKEND_SESSION_KEY))) eqn:Ht;
    [| reflexivity].
  destruct (Himp eq_refl) as [cls ->]. reflexivity.
Qed.

Lemma renewal_of_lowercase_GET_passes_through_witness :
  _handle_refresh_token_expire
    (Example.env Example.renewing_settings (fun _ => 5000) Example.ok_200)
    {| method := "get"; path := "/dashboard"; get_full_path := "/dashboard";
       is_ajax := false |}
    (Example.world_of Example.stale_session)
  = (Return None, Example.world_of Example.stale_session).
Proof.
  apply (renewal_of_lowercase_GET_passes_through
           (Example.env Example.renewing_settings (fun _ => 5000) Example.ok_200)
           {| method := "get"; path := "/dashboard"; get_full_path := "/dashboard";
              is_ajax := false |}
           (Example.world_of Example.stale_session)).
  - reflexivity.
  - reflexivity.
  - discriminate.
  - intros H. discriminate H.
Defined.

(** Rounding to a double, on the integers around 2^53 and 2^54. *)
Example round53_examples :
  round53 1000 = 1000
  /\ round53 (2 ^ 53) = 2 ^ 53
  /\ round53 (2 ^ 53 + 1) = 2 ^ 53
  /\ round53 (2 ^ 53 + 3) = 2 ^ 53 + 4
  /\ round53 (2 ^ 54 + 2) = 2 ^ 54
  /\ round53 (2 ^ 54 + 3) = 2 ^ 54 + 4
  /\ round53 (2 ^ 54 + 6) = 2 ^ 54 + 8
  /\ round53 (- (2 ^ 53 + 1)) = - 2 ^ 53.
Proof. repeat split. Qed.
